(** * Nitro control plane: route reconciler, database provisioning, proxy lifecycle

    A shallow embedding of the daemon's gRPC service ([package api]:
    [Apply], [AddDatabase], [RemoveDatabase], [ImportDatabase], [exec]) and
    of the proxy container lifecycle ([package proxycontainer]: [Create],
    [FindAndStart]), with the properties the specification states about
    them.

    Conventions.
    - Go strings and [[]byte] are byte sequences: [string] and [list Byte.byte].
    - A Go [error] result is [option error]; [None] is [nil].
    - Calls that leave the process (TCP dial, subprocess, HTTP, Docker,
      file system, gRPC stream) are answered by an explicit environment
      record and recorded in a trace, in program order. *)

From Stdlib Require Import ZArith String Ascii List Decimal DecimalString Lia.
From stdpp Require Import gmap strings list.

#[local] Set Warnings "-clear-no-such-hyp".

Local Open Scope string_scope.
Local Open Scope Z_scope.
Local Open Scope list_scope.

(** ** Go runtime helpers *)

Module Go.

(** [error]: the sentinel [io.EOF], errors built by [fmt.Errorf] /
    [errors.New], and gRPC status errors ([status.Errorf(codes.Internal, ...)]). *)
Inductive error : Type :=
| io_EOF
| errorString (msg : string)
| statusInternal (msg : string).

(** [err.Error()] *)
Definition Error (e : error) : string :=
  match e with
  | io_EOF => "EOF"
  | errorString m => m
  | statusInternal m => "rpc error: code = Internal desc = " +:+ m
  end.

(** [errors.Is(err, io.EOF)] on the unwrapped errors used here. *)
Definition is_EOF (e : error) : bool :=
  match e with io_EOF => true | _ => false end.

(** [%d] of an integer. *)
Definition fmt_d (z : Z) : string := NilZero.string_of_int (Z.to_int z).

(** [%v] of an [error] value; a nil error prints as [<nil>]. *)
Definition fmt_v (e : option error) : string :=
  match e with
  | None => "<nil>"
  | Some e => Error e
  end.

(** [strings.Split(s, sep)] for a one-byte separator: every separator
    ends a field, so [n] separators give [n + 1] fields, and the empty
    string gives one empty field. *)
Fixpoint strings_Split (s : string) (sep : ascii) : list string :=
  match s with
  | EmptyString => [EmptyString]
  | String c rest =>
      if Ascii.eqb c sep then EmptyString :: strings_Split rest sep
      else match strings_Split rest sep with
           | [] => [String c EmptyString]
           | field :: fields => String c field :: fields
           end
  end.

(** [strings.Join(l, sep)] for a one-byte separator. *)
Fixpoint strings_Join (l : list string) (sep : ascii) : string :=
  match l with
  | [] => EmptyString
  | [x] => x
  | x :: rest => x +:+ String sep (strings_Join rest sep)
  end.

(** Whether byte [c] occurs in [s]. *)
Fixpoint contains_byte (c : ascii) (s : string) : bool :=
  match s with
  | EmptyString => false
  | String d rest => Ascii.eqb d c || contains_byte c rest
  end.

End Go.

Import Go.

(** ** [pkg/caddy]: the configuration document

    The package is not part of the sources at hand; the records below are
    the fields [Apply] fills in. *)

Module caddy.

Record Upstream := { Dial : string }.

Record RouteHandle := {
  Handler : string;
  Upstreams : list Upstream;
  Root : string;
  Hide : list string
}.

Record Match := { Host : list string }.

Record ServerRoute := {
  Handle : list RouteHandle;
  Match_ : list Match;
  Terminal : bool
}.

Record Server := {
  Listen : list string;
  Routes : list ServerRoute
}.

Record UpdateRequest := {
  HTTPS : Server;
  HTTP : Server
}.

(** The server blocks of the document, in field order. *)
Definition servers (u : UpdateRequest) : list Server := [HTTPS u; HTTP u].

End caddy.

(** ** [pkg/database]: import options

    The package is not part of the sources at hand; [ImportOptions] has
    the fields [ImportDatabase] assigns. *)

Module database.

Record ImportOptions := {
  Engine : string;
  Version : string;
  Hostname : string;
  Port : string;
  DatabaseName : string;
  File : string;
  Compressed : bool
}.

End database.

(** ** [package api]: the route reconciler *)

Module api.

Import caddy.

(** [protob.Site]: hostname, comma-delimited aliases, port ([int32]). *)
Record Site := {
  Hostname : string;
  Aliases : string;
  Port : Z
}.

(** Modelled from the spec: the declaration of [protob.ApplyRequest] is not
    part of the sources. [Apply] ranges over [request.GetSites()] with a
    key [k] printed by [%s] and a site; the specification's data model
    gives every Site an [upstreamKey] and makes the batch an ordered list.
    [Sites] is that list of (upstreamKey, site) entries, in the order the
    [range] loop visits them. *)
Record ApplyRequest := { Sites : list (string * Site) }.

Record ApplyResponse := {
  Message : string;
  Error_ : bool
}.

(** What the outside world answers to one [Apply] call. *)
Record ApplyEnv := {
  (** [json.Marshal(&update)] *)
  json_Marshal : UpdateRequest -> string + error;
  (** [svc.HTTP.Post(url, "application/json", body)]: a transport error
      or the status code of the response. *)
  HTTP_Post : string -> string -> string -> error + Z
}.

Record Service := { Addr : string }.

Definition http_StatusOK : Z := 200.

(** The host names one site answers to: [hosts] in the loop body. *)
Definition site_hosts (site : Site) : list string :=
  let hosts := [Hostname site] in
  if String.eqb (Aliases site) "" then hosts
  else hosts ++ strings_Split (Aliases site) ","%char.

(** The loop body of [Apply]: the route appended for entry [(k, site)]. *)
Definition site_route (entry : string * Site) : ServerRoute :=
  let '(k, site) := entry in
  {| Handle := [ {| Handler := "reverse_proxy";
                    Upstreams := [ {| Dial := k +:+ ":" +:+ fmt_d (Port site) |} ];
                    Root := "";
                    Hide := [] |} ];
     Match_ := [ {| Host := site_hosts site |} ];
     Terminal := true |}.

(** [routes] after the loop: one [append] per entry, in visiting order. *)
Definition build_routes (sites : list (string * Site)) : list ServerRoute :=
  fold_left (fun routes entry => routes ++ [site_route entry]) sites [].

(** The default welcome route appended to the HTTP server. *)
Definition welcome_route : ServerRoute :=
  {| Handle := [ {| Handler := "vars"; Upstreams := [];
                    Root := "/var/www/html"; Hide := [] |};
                 {| Handler := "file_server"; Upstreams := [];
                    Root := "/var/www/html";
                    Hide := ["/etc/caddy/Caddyfile"] |} ];
     Match_ := [];
     Terminal := true |}.

(** [update] as built by [Apply] before it is marshalled. *)
Definition build_update (request : ApplyRequest) : UpdateRequest :=
  let routes := build_routes (Sites request) in
  {| HTTPS := {| Listen := [":443"]; Routes := routes |};
     HTTP := {| Listen := [":80"]; Routes := routes ++ [welcome_route] |} |}.

(** The alias list of a site: the comma-separated fields of [Aliases],
    none when the field is empty. *)
Definition site_aliases (site : Site) : list string :=
  if String.eqb (Aliases site) "" then [] else strings_Split (Aliases site) ","%char.

(** The reverse-proxy handler to [dial]. *)
Definition reverse_proxy_to (dial : string) : RouteHandle :=
  {| Handler := "reverse_proxy"; Upstreams := [ {| Dial := dial |} ];
     Root := ""; Hide := [] |}.

(** The address [Apply] posts to. *)
Definition config_endpoint (svc : Service) : string :=
  (if String.eqb (Addr svc) "" then "http://127.0.0.1:2019" else Addr svc)
  +:+ "/config/apps/http/servers".

(** [Service.Apply]: the pair is Go's result, a response pointer (possibly
    nil) and an error (possibly nil). *)
Definition Apply (env : ApplyEnv) (svc : Service) (request : ApplyRequest)
  : option ApplyResponse * option error :=
  let addr := if String.eqb (Addr svc) "" then "http://127.0.0.1:2019" else Addr svc in
  let update := build_update request in
  match json_Marshal env update with
  | inr err => (None, Some err)
  | inl content =>
      match HTTP_Post env (addr +:+ "/config/apps/http/servers") "application/json" content with
      | inl err =>
          (Some {| Message := "Error updating Caddy API, err: " +:+ Error err;
                   Error_ := true |}, Some err)
      | inr StatusCode =>
          if negb (StatusCode =? http_StatusOK) then
            (Some {| Message := "Received " +:+ fmt_d StatusCode +:+ " response from Caddy API";
                     Error_ := true |}, None)
          else
            (Some {| Message := "Successfully applied changes, sites: "
                                +:+ fmt_d (Z.of_nat (length (Sites request)));
                     Error_ := false |}, None)
      end
  end.


(** *** Database provisioning: messages, environment, trace *)

(** [protob.DatabaseInfo], named by its getters. *)
Record DatabaseInfo := {
  GetEngine : string;
  GetVersion : string;
  GetHostname : string;
  GetPort : string;
  GetDatabase : string;
  GetCompressed : bool
}.

(** Getters on a nil message return zero values. *)
Definition nil_DatabaseInfo : DatabaseInfo :=
  {| GetEngine := ""; GetVersion := ""; GetHostname := ""; GetPort := "";
     GetDatabase := ""; GetCompressed := false |}.

(** [protob.ImportDatabaseRequest]: what [req.GetDatabase()] and
    [req.GetData()] return. *)
Record ImportDatabaseRequest := {
  Database : DatabaseInfo;
  GetData : list Byte.byte
}.

(** The outcome of starting and waiting for one subprocess. *)
Inductive ExecOutcome : Type :=
| StartError (err : error)       (* [c.Start()] fails *)
| WaitExitStatus (status : Z)    (* [*exec.ExitError] with a [syscall.WaitStatus] *)
| WaitExitOpaque                 (* [*exec.ExitError] whose [Sys()] is something else *)
| WaitError (err : error)        (* any other error of [c.Wait()] *)
| ExitOK.

(** The outcome of one [tempFile.Write(data)]: everything written, or a
    prefix of [written] bytes and an error. *)
Inductive WriteOutcome : Type :=
| WriteAll
| WriteShort (written : nat) (err : error).

(** Calls that leave the process, as recorded in the trace. [EvImport]
    carries the content of the file named by the options at the moment
    the importer is entered. *)
Inductive Event : Type :=
| EvDial (hostname port : string)
| EvFindTool (engine version : string)
| EvCommand (tool : string) (args : list string)
| EvTempFile (dir pattern : string)
| EvRecv
| EvWrite (name : string) (data : list Byte.byte)
| EvImport (opts : database.ImportOptions) (content : option (list Byte.byte))
| EvSendAndClose (message : string)
| EvRemove (name : string)
| EvClose (name : string).

(** An event that launches, or may launch, a database client process. *)
Definition launches_process (e : Event) : bool :=
  match e with
  | EvCommand _ _ | EvImport _ _ => true
  | _ => false
  end.

Definition process_invocations (tr : list Event) : nat :=
  length (filter (fun e => launches_process e = true) tr).

(** The file content the importer saw: the content carried by the first
    [EvImport] of a trace. *)
Fixpoint imported_content (tr : list Event) : option (list Byte.byte) :=
  match tr with
  | [] => None
  | EvImport _ content :: _ => content
  | _ :: tr => imported_content tr
  end.

(** The events of reading the stream into the temp file. *)
Definition is_stream_event (e : Event) : bool :=
  match e with
  | EvRecv | EvWrite _ _ => true
  | _ => false
  end.

(** What the outside world answers to the database operations. The
    answers to subprocess runs and file writes may depend on what has
    happened so far. *)
Record DbEnv := {
  (** [portavail.Check(host, port)]: [None] when the dial connects. *)
  portavail_Check : string -> string -> option error;
  (** [database.DefaultImportToolFinder(engine, version)] *)
  DefaultImportToolFinder : string -> string -> string + error;
  (** the subprocess started by [exec.Command(tool, args...)] *)
  command_run : list Event -> string -> list string -> ExecOutcome;
  (** [%q] of a string *)
  fmt_q : string -> string;
  (** [os.TempDir()] *)
  os_TempDir : string;
  (** [ioutil.TempFile(dir, pattern)]: the name picked, or an error *)
  ioutil_TempFile : string -> string -> string + error;
  (** [tempFile.Write(data)] *)
  file_Write : list Event -> list Byte.byte -> WriteOutcome;
  (** the results of successive [stream.Recv()] calls; when the list is
      used up the stream reports [io.EOF] *)
  stream : list (ImportDatabaseRequest + error);
  (** [database.NewImporter().Import(&opts, finder)] *)
  Importer_Import : list Event -> database.ImportOptions -> option error;
  (** [stream.SendAndClose(response)] *)
  stream_SendAndClose : string -> option error
}.

(** *** [AddDatabase], [exec], [RemoveDatabase] *)

(** [Service.exec]: returns the error and the extended trace. *)
Definition exec (env : DbEnv) (tr : list Event) (tool : string) (commands : list string)
  : option error * list Event :=
  let tr' := tr ++ [EvCommand tool commands] in
  match command_run env tr tool commands with
  | StartError err =>
      (Some (errorString ("unable to start the command: " +:+ Error err)), tr')
  | WaitExitStatus status =>
      (Some (errorString ("Exit Status: " +:+ fmt_d status)), tr')
  | WaitExitOpaque => (None, tr')
  | WaitError err => (Some err, tr')
  | ExitOK => (None, tr')
  end.

(** The error of the reachability gate: the dial returned no error. *)
Definition not_available (hostname port : string) (err : option error) : error :=
  statusInternal ("it does not appear the database is available on host "
                  +:+ hostname +:+ " using port " +:+ port +:+ ": " +:+ fmt_v err).

(** [Service.AddDatabase]: the response message or the error, and the trace. *)
Definition AddDatabase (env : DbEnv) (req : DatabaseInfo) : (string + error) * list Event :=
  let hostname := GetHostname req in
  let port := GetPort req in
  let engine := GetEngine req in
  let version := GetVersion req in
  let db := GetDatabase req in
  let tr := [EvDial hostname port] in
  match portavail_Check env hostname port with
  | None => (inr (not_available hostname port None), tr)
  | Some _ =>
      let tr := tr ++ [EvFindTool engine version] in
      match DefaultImportToolFinder env engine version with
      | inr _ => (inr (statusInternal "error finding the database tool"), tr)
      | inl tool =>
          let '(addCommand, privilegesCommand) :=
            if String.eqb engine "mysql" then
              (["--user=nitro"; "--host=" +:+ hostname; "-pnitro";
                "-e CREATE DATABASE IF NOT EXISTS " +:+ db +:+ ";"],
               Some ["--user=nitro"; "--host=" +:+ hostname; "-pnitro";
                     "-e CREATE DATABASE IF NOT EXISTS " +:+ db +:+ ";"])
            else
              (["--host=" +:+ hostname; "--port=" +:+ port; "--username=nitro";
                "-c CREATE DATABASE " +:+ db +:+ ";"],
               None) in
          match exec env tr tool addCommand with
          | (Some err, tr) =>
              (inr (statusInternal ("error creating database: " +:+ Error err)), tr)
          | (None, tr) =>
              let added := inl ("Database " +:+ fmt_q env db +:+ " added to "
                                +:+ fmt_q env hostname +:+ " successfully") in
              match privilegesCommand with
              | Some _ =>
                  match exec env tr tool addCommand with
                  | (Some err, tr) =>
                      (inr (statusInternal ("error setting privileges on database: "
                                            +:+ Error err)), tr)
                  | (None, tr) => (added, tr)
                  end
              | None => (added, tr)
              end
          end
      end
  end.

(** [Service.RemoveDatabase] *)
Definition RemoveDatabase (env : DbEnv) (req : DatabaseInfo) : (string + error) * list Event :=
  let hostname := GetHostname req in
  let port := GetPort req in
  let engine := GetEngine req in
  let version := GetVersion req in
  let db := GetDatabase req in
  let tr := [EvDial hostname port] in
  match portavail_Check env hostname port with
  | None => (inr (not_available hostname port None), tr)
  | Some _ =>
      let tr := tr ++ [EvFindTool engine version] in
      match DefaultImportToolFinder env engine version with
      | inr _ => (inr (statusInternal "error finding the database tool"), tr)
      | inl tool =>
          let removeCommand :=
            if String.eqb engine "mysql" then
              ["--user=nitro"; "--host=" +:+ hostname; "-pnitro";
               "-e DROP DATABASE IF EXISTS " +:+ db +:+ ";"]
            else
              ["--host=" +:+ hostname; "--port=" +:+ port; "--username=nitro";
               "-c DROP DATABASE IF EXISTS " +:+ db +:+ ";"] in
          match exec env tr tool removeCommand with
          | (Some err, tr) =>
              (inr (statusInternal ("error removing database: " +:+ Error err)), tr)
          | (None, tr) =>
              (inl ("Removed the database " +:+ fmt_q env db +:+ " from "
                    +:+ fmt_q env hostname +:+ " successfully"), tr)
          end
      end
  end.

(** *** [ImportDatabase] *)

(** The state an import call threads: the trace and the local file
    system (file name to content). *)
Record ImportState := {
  trace : list Event;
  files : gmap string (list Byte.byte)
}.

Definition log (e : Event) (st : ImportState) : ImportState :=
  {| trace := trace st ++ [e]; files := files st |}.

(** Append [data] to the file [name], if it exists. *)
Definition file_append (name : string) (data : list Byte.byte) (st : ImportState)
  : ImportState :=
  {| trace := trace st;
     files := match files st !! name with
              | Some content => <[name := content ++ data]> (files st)
              | None => files st
              end |}.

(** [os.Remove(name)]; its error is dropped by the [defer]. *)
Definition os_Remove (name : string) (st : ImportState) : ImportState :=
  log (EvRemove name) {| trace := trace st; files := delete name (files st) |}.

(** [tempFile.Close()] *)
Definition File_Close (name : string) (st : ImportState) : ImportState :=
  log (EvClose name) st.

(** [opts] after the first message: every field is taken from the
    message when it still has its zero value. *)
Definition first_message_options (name : string) (req : ImportDatabaseRequest)
  : database.ImportOptions :=
  let info := Database req in
  let Engine := "" in
  let Version := "" in
  let Port := "" in
  let Hostname := "" in
  let DatabaseName := "" in
  let Compressed := false in
  let Engine := if String.eqb Engine "" then GetEngine info else Engine in
  let Version := if String.eqb Version "" then GetVersion info else Version in
  let Port := if String.eqb Port "" then GetPort info else Port in
  let Hostname := if String.eqb Hostname "" then GetHostname info else Hostname in
  let DatabaseName := if String.eqb DatabaseName "" then GetDatabase info else DatabaseName in
  let Compressed := if negb Compressed && GetCompressed info
                    then GetCompressed info else Compressed in
  {| database.Engine := Engine;
     database.Version := Version;
     database.Hostname := Hostname;
     database.Port := Port;
     database.DatabaseName := DatabaseName;
     database.File := name;
     database.Compressed := Compressed |}.

(** The [for] loop over the rest of the stream: [inbox] holds the results
    of the coming [stream.Recv()] calls. Returns the error that ends the
    call, if any. *)
Fixpoint receive_loop (env : DbEnv) (name : string)
    (inbox : list (ImportDatabaseRequest + error)) (st : ImportState)
  : option error * ImportState :=
  let st := log EvRecv st in
  match inbox with
  | [] => (None, st)
  | inr err :: _ =>
      if is_EOF err then (None, st)
      else (Some (statusInternal ("unable to create the stream: " +:+ Error err)), st)
  | inl req :: inbox =>
      let data := GetData req in
      let outcome := file_Write env (trace st) data in
      let st := log (EvWrite name data) st in
      match outcome with
      | WriteAll => receive_loop env name inbox (file_append name data st)
      | WriteShort written err =>
          let st := file_append name (take written data) st in
          if negb (is_EOF err) then
            (Some (statusInternal "unable to write content to the temp file"), st)
          else receive_loop env name inbox st
      end
  end.

(** The body of [ImportDatabase] after the temp file exists and its
    removal is deferred. *)
Definition ImportDatabase_body (env : DbEnv) (name : string) (st : ImportState)
  : option error * ImportState :=
  let st := log EvRecv st in
  match stream env with
  | [] => (Some (statusInternal ("unable to receive from stream: " +:+ Error io_EOF)), st)
  | inr err :: _ =>
      (Some (statusInternal ("unable to receive from stream: " +:+ Error err)), st)
  | inl req :: inbox =>
      let opts := first_message_options name req in
      match receive_loop env name inbox st with
      | (Some err, st) => (Some err, st)
      | (None, st) =>
          let hostname := database.Hostname opts in
          let port := database.Port opts in
          let st := log (EvDial hostname port) st in
          match portavail_Check env hostname port with
          | None => (Some (not_available hostname port None), st)
          | Some _ =>
              let imported := Importer_Import env (trace st) opts in
              let st := log (EvImport opts (files st !! database.File opts)) st in
              match imported with
              | Some err =>
                  (Some (statusInternal ("error importing the database " +:+ Error err)), st)
              | None =>
                  let message := "Imported database " +:+ fmt_q env (database.DatabaseName opts) in
                  (stream_SendAndClose env message, log (EvSendAndClose message) st)
              end
          end
      end
  end.

(** [Service.ImportDatabase], started on the file system [fs]. The temp
    file is created exclusively: a name that is already taken is an
    error. The two deferred calls run last registered first. *)
Definition ImportDatabase (env : DbEnv) (fs : gmap string (list Byte.byte))
  : option error * ImportState :=
  let pattern := "nitro-db-import" in
  let st := log (EvTempFile (os_TempDir env) pattern) {| trace := []; files := fs |} in
  let failed := (Some (statusInternal "Unable creating a temp file for the upload"), st) in
  match ioutil_TempFile env (os_TempDir env) pattern with
  | inr _ => failed
  | inl name =>
      match fs !! name with
      | Some _ => failed
      | None =>
          let st := {| trace := trace st; files := <[name := []]> fs |} in
          let '(ret, st) := ImportDatabase_body env name st in
          let st := os_Remove name st in
          let st := File_Close name st in
          (ret, st)
      end
  end.

End api.

(** ** [package proxycontainer]: the proxy container lifecycle *)

Module proxycontainer.

(** [types.Container], the fields read here. *)
Record Container := {
  ID : string;
  Names : list string;
  State : string
}.

Record PortBinding := {
  HostIP : string;
  HostPort : string
}.

Record Mount := {
  Type_ : string;
  Source : string;
  Target : string
}.

(** The arguments of [docker.ContainerCreate]: [container.Config],
    [container.HostConfig], [network.NetworkingConfig] and the name. Go
    maps are finite maps; [nat.PortSet] is a set of ports. *)
Record CreateRequest := {
  Image : string;
  ExposedPorts : gset string;
  Labels : gmap string string;
  NetworkMode : string;
  Mounts : list Mount;
  PortBindings : gmap string (list PortBinding);
  EndpointsConfig : gmap string string;
  ContainerName : string
}.

(** [filters.Args] as the (key, value) pairs added, in order. *)
Definition Filters := list (string * string).

(** Calls on the Docker client, as recorded in the trace. The client
    interface has more methods than the package calls; of those only
    [ContainerRemove] is listed, to state that it is never called. *)
Inductive DockerCall : Type :=
| ImageList (filter : Filters)
| ImagePull (ref : string)
| ContainerList (filter : Filters) (all : bool)
| ContainerCreate (req : CreateRequest)
| ContainerStart (containerID : string)
| ContainerRemove (containerID : string).

(** The process environment, the Docker engine's answers, and what the
    packages outside the sources at hand provide: [nat.NewPort] of
    go-connections and the constants of [pkg/labels] and
    [command/version]. *)
Record DockerEnv := {
  environ : gmap string string;
  docker_ImageList : Filters -> nat + error;
  docker_ImagePull : string -> option error;
  pull_ReadFrom : option error;
  docker_ContainerList : Filters -> list Container + error;
  docker_ContainerCreate : CreateRequest -> string + error;
  docker_ContainerStart : string -> option error;
  nat_NewPort : string -> string -> string * option error;
  labels_Nitro : string;
  labels_Type : string;
  labels_Proxy : string;
  labels_ProxyVersion : string;
  version_Version : string
}.

(** [os.Getenv]: the empty string when the variable is not set. *)
Definition os_Getenv (env : DockerEnv) (key : string) : string :=
  default "" (environ env !! key).

Definition ProxyImage (env : DockerEnv) : string :=
  "craftcms/nitro-proxy:" +:+ version_Version env.

Definition ErrNoProxyContainer : error :=
  errorString "unable to locate the proxy container".

Definition LF : string := String (ascii_of_nat 10) EmptyString.

(** [fmt.Errorf(prefix + "%w", err)] *)
Definition wrap (prefix : string) (err : error) : error :=
  errorString (prefix +:+ Error err).

(** [n == "nitro-proxy" || n == "/nitro-proxy"] *)
Definition is_proxy_name (n : string) : bool :=
  String.eqb n "nitro-proxy" || String.eqb n "/nitro-proxy".

(** The two nested loops of [Create] over the listed containers and their
    names: [(containerID, proxyRunning)] at the end. *)
Definition find_proxy (containers : list Container) : string * bool :=
  fold_left
    (fun acc c =>
       fold_left
         (fun '(containerID, proxyRunning) n =>
            if is_proxy_name n then
              (ID c, if String.eqb (State c) "running" then true else proxyRunning)
            else (containerID, proxyRunning))
         (Names c) acc)
    containers ("", false).

(** The image check at the head of [Create], skipped in development. *)
Definition ensure_image (env : DockerEnv) : option error * list DockerCall :=
  if negb (String.eqb (os_Getenv env "NITRO_DEVELOPMENT") "true") then
    let imageFilter := [("label", labels_Nitro env +:+ "=true");
                        ("reference", ProxyImage env)] in
    let tr := [ImageList imageFilter] in
    match docker_ImageList env imageFilter with
    | inr err => (Some (wrap "unable to get a list of images, " err), tr)
    | inl images =>
        if Nat.eqb images 0 then
          let tr := tr ++ [ImagePull (ProxyImage env)] in
          match docker_ImagePull env (ProxyImage env) with
          | Some err =>
              (Some (wrap "unable to pull the nitro-proxy from docker hub, " err), tr)
          | None =>
              match pull_ReadFrom env with
              | Some err =>
                  (Some (wrap "unable to read the output from pulling the image, " err), tr)
              | None => (None, tr)
              end
          end
        else (None, tr)
    end
  else (None, []).

(** The text a port is parsed from: the value of the environment
    variable [key], or [fallback] when it is empty or not set. *)
Definition port_setting (env : DockerEnv) (key fallback : string) : string :=
  if String.eqb (os_Getenv env key) "" then fallback else os_Getenv env key.

(** The three ports of a new proxy container. [err] is the function's
    [err] variable: the HTTPS override discards the error of
    [nat.NewPort] and tests the variable as the HTTP step left it. *)
Definition proxy_ports (env : DockerEnv) : (string * string * string) + error :=
  let '(httpPort, err) :=
    if String.eqb (os_Getenv env "NITRO_HTTP_PORT") "" then nat_NewPort env "tcp" "80"
    else nat_NewPort env "tcp" (os_Getenv env "NITRO_HTTP_PORT") in
  match err with
  | Some e => inr (wrap "unable to set the HTTP port, " e)
  | None =>
      let '(httpsPort, err) :=
        if String.eqb (os_Getenv env "NITRO_HTTPS_PORT") "" then nat_NewPort env "tcp" "443"
        else (fst (nat_NewPort env "tcp" (os_Getenv env "NITRO_HTTPS_PORT")), err) in
      match err with
      | Some e => inr (wrap "unable to set the HTTPS port, " e)
      | None =>
          let '(apiPort, err) :=
            if String.eqb (os_Getenv env "NITRO_API_PORT") "" then nat_NewPort env "tcp" "5000"
            else nat_NewPort env "tcp" (os_Getenv env "NITRO_API_PORT") in
          match err with
          | Some e => inr (wrap "unable to set the API port, " e)
          | None => inl (httpPort, httpsPort, apiPort)
          end
      end
  end.

(** The request passed to [docker.ContainerCreate]. Map literals are
    filled in source order, a later equal key replacing an earlier one. *)
Definition create_request (env : DockerEnv) (volumeName networkID : string)
    (httpPort httpsPort apiPort : string) : CreateRequest :=
  {| Image := ProxyImage env;
     ExposedPorts := {[httpPort]} ∪ {[httpsPort]} ∪ {[apiPort]};
     Labels := <[labels_ProxyVersion env := version_Version env]>
                 (<[labels_Proxy env := "true"]>
                    (<[labels_Type env := "proxy"]>
                       (<[labels_Nitro env := "true"]> ∅)));
     NetworkMode := "default";
     Mounts := [ {| Type_ := "volume"; Source := volumeName; Target := "/data" |} ];
     PortBindings :=
       <[apiPort := [ {| HostIP := "127.0.0.1"; HostPort := "5000" |} ]]>
         (<[httpsPort := [ {| HostIP := "127.0.0.1"; HostPort := "443" |} ]]>
            (<[httpPort := [ {| HostIP := "127.0.0.1"; HostPort := "80" |} ]]> ∅));
     EndpointsConfig := {[ "nitro-network" := networkID ]};
     ContainerName := "nitro-proxy" |}.

(** The filter [Create] lists containers with. *)
Definition proxy_filter (env : DockerEnv) : Filters :=
  [("label", labels_Nitro env +:+ "=true");
   ("label", labels_Proxy env +:+ "=true")].

(** Calls about images. *)
Definition is_image_call (c : DockerCall) : bool :=
  match c with
  | ImageList _ | ImagePull _ => true
  | _ => false
  end.

(** Calls that delete a container. *)
Definition is_remove_call (c : DockerCall) : bool :=
  match c with
  | ContainerRemove _ => true
  | _ => false
  end.

(** [Create]: the error returned and the Docker calls made, in order. *)
Definition Create (env : DockerEnv) (volumeName networkID : string)
  : option error * list DockerCall :=
  match ensure_image env with
  | (Some err, tr) => (Some err, tr)
  | (None, tr) =>
      let filter := proxy_filter env in
      let tr := tr ++ [ContainerList filter true] in
      match docker_ContainerList env filter with
      | inr err => (Some (wrap ("unable to list the containers" +:+ LF) err), tr)
      | inl containers =>
          let '(containerID, proxyRunning) := find_proxy containers in
          let start (containerID : string) (tr : list DockerCall) :=
            if negb proxyRunning then
              let tr := tr ++ [ContainerStart containerID] in
              match docker_ContainerStart env containerID with
              | Some err => (Some (wrap "unable to start the nitro container, " err), tr)
              | None => (None, tr)
              end
            else (None, tr) in
          if String.eqb containerID "" then
            match proxy_ports env with
            | inr err => (Some err, tr)
            | inl (httpPort, httpsPort, apiPort) =>
                let req := create_request env volumeName networkID httpPort httpsPort apiPort in
                let tr := tr ++ [ContainerCreate req] in
                match docker_ContainerCreate env req with
                | inr err =>
                    (Some (wrap ("unable to create the container from image "
                                 +:+ ProxyImage env +:+ LF) err), tr)
                | inl respID => start respID tr
                end
            end
          else start containerID tr
      end
  end.

(** [FindAndStart]: the inner loop over [c.Names] returns at the first
    proxy name, so a container is taken when one of its names matches. *)
Fixpoint find_and_start (env : DockerEnv) (containers : list Container)
    (tr : list DockerCall) : (Container + error) * list DockerCall :=
  match containers with
  | [] => (inr ErrNoProxyContainer, tr)
  | c :: rest =>
      if existsb is_proxy_name (Names c) then
        if negb (String.eqb (State c) "running") then
          let tr := tr ++ [ContainerStart (ID c)] in
          match docker_ContainerStart env (ID c) with
          | Some err => (inr (wrap "unable to start the proxy container: " err), tr)
          | None => (inl c, tr)
          end
        else (inl c, tr)
      else find_and_start env rest tr
  end.

Definition FindAndStart (env : DockerEnv) : (Container + error) * list DockerCall :=
  let f := [("label", labels_Type env +:+ "=proxy")] in
  let tr := [ContainerList f true] in
  match docker_ContainerList env f with
  | inr err => (inr (wrap "unable to list the containers: " err), tr)
  | inl containers => find_and_start env containers tr
  end.

End proxycontainer.


(** ** Shapes of traces *)

Module shapes.

Import api proxycontainer.


(** What [Create] does after the image check: nothing, the listing alone,
    or the listing followed by a start, a create, or a create and a start
    of the container just created. *)
Inductive create_tail (env : DockerEnv) : list DockerCall -> Prop :=
| ctail_none : create_tail env []
| ctail_list : create_tail env [ContainerList (proxy_filter env) true]
| ctail_start containerID :
    create_tail env [ContainerList (proxy_filter env) true; ContainerStart containerID]
| ctail_create req :
    create_tail env [ContainerList (proxy_filter env) true; ContainerCreate req]
| ctail_create_start req containerID :
    docker_ContainerCreate env req = inl containerID ->
    create_tail env [ContainerList (proxy_filter env) true; ContainerCreate req;
                     ContainerStart containerID].

(** The last listed container that carries the proxy's name. *)
Definition last_proxy (containers : list Container) : option Container :=
  last (filter (fun c => existsb is_proxy_name (Names c) = true) containers).

(** The first listed container that carries the proxy's name. *)
Definition first_proxy (containers : list Container) : option Container :=
  head (filter (fun c => existsb is_proxy_name (Names c) = true) containers).

(** Whether a listed container carries the proxy's name and is running. *)
Definition running_proxy (c : Container) : bool :=
  existsb is_proxy_name (Names c) && String.eqb (State c) "running".

(** The number of occurrences of byte [c] in [s]. *)
Fixpoint count_byte (c : ascii) (s : string) : nat :=
  match s with
  | EmptyString => 0
  | String d rest => ((if Ascii.eqb d c then 1 else 0) + count_byte c rest)%nat
  end.

End shapes.

(** ** The Docker engine as the commands see it *)

Module engine.

Import proxycontainer.

(** [types.Container], the fields the commands read. *)
Record Listed := {
  ListedID : string;
  ListedNames : list string;
  ListedLabels : gmap string string
}.

(** Calls on the Docker client and on what it hands back, as recorded in
    the trace. [ContainerRemove] and [ContainerWait] are methods of the
    client that one can ask about. *)
Inductive Call : Type :=
| ContainerList (filter : Filters) (all : bool)
| ContainerStop (containerID : string)
| ContainerStatPath (containerID path : string)
| CopyFromContainer (containerID path : string)
| ImagePull (ref : string)
| ContainerCreate (image : string) (cmd : list string) (mounts : list Mount)
    (name : string)
| ContainerAttach (containerID : string)
| ContainerStart (containerID : string)
| ContainerWait (containerID : string)
| ContainerRemove (containerID : string)
| ContainerExecCreate (containerID : string) (cmd : list string)
| ContainerExecAttach (execID : string)
| ContainerExecStart (execID : string)
| ContainerExecInspect (execID : string)
| ContainerInspect (containerID : string)
| StdCopy (containerID : string)
| CloseStream (attached : string).

(** What a Go function ends with: a return, or a run-time panic. *)
Inductive Outcome (A : Type) : Type :=
| Returned (a : A)
| Panicked (reason : string).

Arguments Returned {A} a.
Arguments Panicked {A} reason.

(** [strings.TrimLeft(s, cutset)] for a one-byte cutset. *)
Fixpoint strings_TrimLeft (s : string) (cut : ascii) : string :=
  match s with
  | EmptyString => EmptyString
  | String c rest => if Ascii.eqb c cut then strings_TrimLeft rest cut else s
  end.

End engine.

(** ** [package client]: running composer in a temporary container *)

Module client.

Import proxycontainer engine.

(** The engine's answers to [Composer]. *)
Record ComposerEnv := {
  docker_ImagePull : string -> option error;
  docker_ContainerCreate : string -> list string -> list Mount -> string -> string + error;
  docker_ContainerAttach : string -> option error;
  docker_ContainerStart : string -> option error;
  stdcopy_StdCopy : string -> option error
}.

(** [Client.Composer]: the error returned and the calls made. The stream
    of a successful attach is closed when the function returns. *)
Definition Composer (env : ComposerEnv) (dir version action : string)
  : option error * list Call :=
  let image := "docker.io/library/" +:+ "composer" +:+ ":" +:+ version in
  let tr := [ImagePull image] in
  match docker_ImagePull env image with
  | Some err => (Some (wrap "unable to pull the docker image, " err), tr)
  | None =>
      let cmd :=
        if String.eqb action "install" then
          ["composer"; "install"; "--ignore-platform-reqs"; "--prefer-dist"]
        else
          ["composer"; "update"; "--ignore-platform-reqs"; "--prefer-dist"] in
      let mounts := [ {| Type_ := "bind"; Source := dir; Target := "/app" |} ] in
      let tr := tr ++ [ContainerCreate image cmd mounts ""] in
      match docker_ContainerCreate env image cmd mounts "" with
      | inr err => (Some (wrap ("unable to create the composer container" +:+ LF) err), tr)
      | inl respID =>
          let tr := tr ++ [ContainerAttach respID] in
          match docker_ContainerAttach env respID with
          | Some err => (Some (wrap "unable to attach to container, " err), tr)
          | None =>
              let '(ret, tr) :=
                let tr := tr ++ [ContainerStart respID] in
                match docker_ContainerStart env respID with
                | Some err => (Some (wrap "unable to start the container, " err), tr)
                | None =>
                    let tr := tr ++ [StdCopy respID] in
                    match stdcopy_StdCopy env respID with
                    | Some err =>
                        (Some (wrap "unable to copy the output of the container logs, " err),
                         tr)
                    | None => (None, tr)
                    end
                end in
              (ret, tr ++ [CloseStream respID])
          end
      end
  end.

End client.

(** ** [package stop]: stopping the containers of an environment *)

Module stop.

Import proxycontainer engine.

Definition ErrNoContainers : error := errorString "there are no running containers".

(** The engine's answers and the constant of [labels]. *)
Record StopEnv := {
  labels_Environment : string;
  docker_ContainerList : Filters -> list Listed + error;
  docker_ContainerStop : string -> option error
}.

(** The loop over the listed containers. [c.Names[0]] panics on a
    container without names. *)
Fixpoint stop_each (env : StopEnv) (containers : list Listed) (tr : list Call)
  : Outcome (option error) * list Call :=
  match containers with
  | [] => (Returned None, tr)
  | c :: rest =>
      match ListedNames c with
      | [] => (Panicked "index out of range [0] with length 0", tr)
      | name :: _ =>
          let n := strings_TrimLeft name "/" in
          let tr := tr ++ [ContainerStop (ListedID c)] in
          match docker_ContainerStop env (ListedID c) with
          | Some err =>
              (Returned (Some (errorString ("unable to stop container " +:+ n +:+ ": "
                                            +:+ Error err))), tr)
          | None => stop_each env rest tr
          end
      end
  end.

(** [RunE] of the stop command for the environment [environment]. *)
Definition RunE (env : StopEnv) (environment : string)
  : Outcome (option error) * list Call :=
  let filter := [("label", labels_Environment env +:+ "=" +:+ environment)] in
  let tr := [ContainerList filter false] in
  match docker_ContainerList env filter with
  | inr err => (Returned (Some (wrap "unable to get a list of the containers, " err)), tr)
  | inl containers =>
      if Nat.eqb (length containers) 0 then (Returned (Some ErrNoContainers), tr)
      else stop_each env containers tr
  end.

End stop.

(** ** [package helpers]: creating a file unless it exists *)

Module helpers.

Import engine.

(** What a path names. *)
Inductive node : Type :=
| RegularFile (content : list Byte.byte)
| Directory.

(** The error of [os.Stat]: the path does not exist, or anything else. *)
Inductive stat_error : Type :=
| NotExist
| OtherStatError (err : error).

(** Failures the file system adds of its own: an error of [os.Stat] other
    than "does not exist" (permission denied, ...) and an error of
    [os.Create] on a path that is not a directory (missing parent,
    permission denied, ...). *)
Record FsEnv := {
  stat_failure : string -> option error;
  create_failure : string -> option error
}.

(** [os.Stat(filename)] *)
Definition os_Stat (env : FsEnv) (fs : gmap string node) (filename : string)
  : node + stat_error :=
  match stat_failure env filename with
  | Some err => inr (OtherStatError err)
  | None =>
      match fs !! filename with
      | Some n => inl n
      | None => inr NotExist
      end
  end.

(** [os.Create(filename)]: creates the file or truncates it; fails on a
    directory. Returns the error and the file system. *)
Definition os_Create (env : FsEnv) (fs : gmap string node) (filename : string)
  : option error * gmap string node :=
  match fs !! filename with
  | Some Directory =>
      (Some (errorString ("open " +:+ filename +:+ ": is a directory")), fs)
  | _ =>
      match create_failure env filename with
      | Some err => (Some err, fs)
      | None => (None, <[filename := RegularFile []]> fs)
      end
  end.

(** [fileExists]: with an error other than "does not exist", [info] is
    nil and [info.IsDir()] panics. *)
Definition fileExists (env : FsEnv) (fs : gmap string node) (filename : string)
  : Outcome bool :=
  match os_Stat env fs filename with
  | inr NotExist => Returned false
  | inr (OtherStatError _) => Panicked "invalid memory address or nil pointer dereference"
  | inl info => Returned (negb (match info with Directory => true | _ => false end))
  end.

(** [CreateFileIfNotExist]: the error returned and the file system after. *)
Definition CreateFileIfNotExist (env : FsEnv) (fs : gmap string node) (filename : string)
  : Outcome (option error) * gmap string node :=
  match fileExists env fs filename with
  | Panicked reason => (Panicked reason, fs)
  | Returned true => (Returned (Some (errorString "file already exists")), fs)
  | Returned false =>
      let '(err, fs) := os_Create env fs filename in
      (Returned err, fs)
  end.

End helpers.

(** ** [package prompt]: adding a site interactively *)

Module prompt.

Import engine.

(** [strings.HasPrefix(s, prefix)] *)
Fixpoint strings_HasPrefix (s prefix : string) : bool :=
  match prefix, s with
  | EmptyString, _ => true
  | String p prefix, String c s => Ascii.eqb p c && strings_HasPrefix s prefix
  | String _ _, EmptyString => false
  end.

(** [s[n:]] for [n] at most the length of [s]. *)
Fixpoint string_drop (n : nat) (s : string) : string :=
  match n, s with
  | O, _ => s
  | S n, String _ s => string_drop n s
  | S _, EmptyString => EmptyString
  end.

(** [strings.Replace(s, old, new, 1)]: the first occurrence of [old]
    replaced by [new]; an empty [old] matches at the start. *)
Fixpoint strings_Replace_first (s old new : string) : string :=
  if strings_HasPrefix s old then new +:+ string_drop (String.length old) s
  else match s with
       | EmptyString => EmptyString
       | String c rest => String c (strings_Replace_first rest old new)
       end.

(** [config.Site], the fields [CreateSite] sets. *)
Record Site := {
  Hostname : string;
  Path : string;
  Webroot : string;
  Version : string
}.

(** What [CreateSite] asks of the outside, as recorded in the trace. *)
Inductive Step : Type :=
| Ask (prompt default : string)
| Select (prompt : string) (options : list string)
| Abs (dir : string)
| FindWebroot (dir : string)
| LoadConfig (home : string)
| AddSite (site : Site)
| SaveConfig.

(** The user, the file system and [pkg/config], [pkg/webroot],
    [pkg/phpversions] as [CreateSite] sees them. [Config] is the type of
    the loaded configuration; [filepath_Join] is [filepath.Join] of one
    element. *)
Record SiteEnv (Config : Type) := {
  os_PathSeparator : ascii;
  filepath_Join : string -> string;
  environ : gmap string string;
  output_Ask : string -> string -> string + error;
  filepath_Abs : string -> string + error;
  webroot_Find : string -> string + error;
  phpversions_Versions : list string;
  output_Select : string -> list string -> Z + error;
  config_Load : string -> Config + error;
  config_AddSite : Config -> Site -> Config + error;
  config_Save : Config -> option error
}.

Arguments os_PathSeparator {Config}.
Arguments filepath_Join {Config}.
Arguments environ {Config}.
Arguments output_Ask {Config}.
Arguments filepath_Abs {Config}.
Arguments webroot_Find {Config}.
Arguments phpversions_Versions {Config}.
Arguments output_Select {Config}.
Arguments config_Load {Config}.
Arguments config_AddSite {Config}.
Arguments config_Save {Config}.

Section CreateSite.

Context {Config : Type}.

Definition os_Getenv (env : SiteEnv Config) (key : string) : string :=
  default "" (environ env !! key).

(** [sp[len(sp)-1]]: the last element of a slice; [strings.Split] never
    returns an empty one. *)
Definition last_field (sp : list string) : string := default "" (last sp).

(** The hostname [CreateSite] proposes for [dir]: the directory's name,
    with the default top-level domain appended if it has no period. *)
Definition proposed_hostname (env : SiteEnv Config) (dir : string) : string :=
  let sp := strings_Split (filepath_Join env dir) (os_PathSeparator env) in
  let hostname := last_field sp in
  if negb (contains_byte "." hostname) then
    let tld := if negb (String.eqb (os_Getenv env "NITRO_DEFAULT_TLD") "")
               then os_Getenv env "NITRO_DEFAULT_TLD" else "nitro" in
    hostname +:+ "." +:+ tld
  else hostname.

(** [versions[selected]] *)
Definition index_Z (l : list string) (i : Z) : option string :=
  if (i <? 0)%Z then None else l !! Z.to_nat i.

(** [CreateSite]: the site and error returned, and the steps taken. *)
Definition CreateSite (env : SiteEnv Config) (home dir : string)
  : Outcome (option Site * option error) * list Step :=
  let hostname0 := proposed_hostname env dir in
  let tr := [Ask "Enter the hostname" hostname0] in
  match output_Ask env "Enter the hostname" hostname0 with
  | inr err => (Returned (None, Some err), tr)
  | inl hostname =>
      let tr := tr ++ [Abs dir] in
      match filepath_Abs env dir with
      | inr err => (Returned (None, Some err), tr)
      | inl siteAbsPath =>
          let path := strings_Replace_first siteAbsPath home "~" in
          let tr := tr ++ [FindWebroot dir] in
          match webroot_Find env dir with
          | inr err => (Returned (None, Some err), tr)
          | inl found =>
              let found := if String.eqb found "" then "web" else found in
              let tr := tr ++ [Ask "Enter the webroot for the site" found] in
              match output_Ask env "Enter the webroot for the site" found with
              | inr err => (Returned (None, Some err), tr)
              | inl root =>
                  let versions := phpversions_Versions env in
                  let tr := tr ++ [Select "Choose a PHP version: " versions] in
                  match output_Select env "Choose a PHP version: " versions with
                  | inr err => (Returned (None, Some err), tr)
                  | inl selected =>
                      match index_Z versions selected with
                      | None => (Panicked "index out of range", tr)
                      | Some version =>
                          let site := {| Hostname := hostname; Path := path;
                                         Webroot := root; Version := version |} in
                          let tr := tr ++ [LoadConfig home] in
                          match config_Load env home with
                          | inr err => (Returned (None, Some err), tr)
                          | inl cfg =>
                              let tr := tr ++ [AddSite site] in
                              match config_AddSite env cfg site with
                              | inr err => (Returned (None, Some err), tr)
                              | inl cfg =>
                                  let tr := tr ++ [SaveConfig] in
                                  match config_Save env cfg with
                                  | Some err => (Returned (None, Some err), tr)
                                  | None => (Returned (Some site, None), tr)
                                  end
                              end
                          end
                      end
                  end
              end
          end
      end
  end.

End CreateSite.

(** *** Adding a database interactively *)

(** The user and the engine as [CreateDatabase] sees them. The answer of
    [ContainerExecInspect] depends on how many times the exec has been
    inspected; [docker_ContainerInspect] gives [p.Port()] for the keys of
    [info.NetworkSettings.Ports] in the order [range] visits them. *)
Record DatabaseEnv := {
  labels_Nitro : string;
  labels_Type : string;
  labels_DatabaseCompatibility : string;
  output_Confirm : bool + error;
  docker_ContainerList : proxycontainer.Filters -> list Listed + error;
  select_engine : list string -> Z + error;
  ask_database : string + error;
  docker_ContainerExecCreate : string -> list string -> string + error;
  docker_ContainerExecAttach : string -> option error;
  docker_ContainerExecStart : string -> option error;
  docker_ContainerExecInspect : nat -> string -> bool + error;
  docker_ContainerInspect : string -> list string + error
}.

(** [c.Names[0]] *)
Definition first_name (c : Listed) : option string := head (ListedNames c).

(** [containers[i].Names[0] < containers[j].Names[0]], on containers that
    have a name. *)
Definition name_less (a b : Listed) : bool :=
  match first_name a, first_name b with
  | Some x, Some y => String.ltb x y
  | _, _ => false
  end.

(** [sort.SliceStable] by [name_less], as a stable insertion sort: an
    element goes before the first element it is less than. *)
Fixpoint insert_by_name (c : Listed) (sorted : list Listed) : list Listed :=
  match sorted with
  | [] => [c]
  | d :: rest => if name_less c d then c :: d :: rest else d :: insert_by_name c rest
  end.

Definition sort_by_name (containers : list Listed) : list Listed :=
  fold_left (fun sorted c => insert_by_name c sorted) containers [].

(** [containers[selected]] *)
Definition at_index {A : Type} (l : list A) (i : Z) : option A :=
  if (i <? 0)%Z then None else l !! Z.to_nat i.

(** The port returned: the loop over the ports stops once [port] is not
    empty. *)
Definition first_port (ports : list string) : string :=
  fold_left (fun port p => if negb (String.eqb port "") then port else p) ports "".

Definition mysql_create (db : string) : list string :=
  ["mysql"; "-uroot"; "-pnitro"; "-e CREATE DATABASE IF NOT EXISTS " +:+ db +:+ ";"].

Definition mysql_grant : list string :=
  ["mysql"; "-uroot"; "-pnitro";
   "-e GRANT ALL PRIVILEGES ON * TO '" +:+ "nitro" +:+ "'@'" +:+ "%" +:+ "';"].

Definition psql_create (db : string) : list string :=
  ["psql"; "--username=nitro"; "--host=127.0.0.1"; "-c CREATE DATABASE " +:+ db +:+ ";"].

(** The loop that waits for an exec to complete: [None] when [fuel]
    inspections did not see it stop. *)
Fixpoint wait_exec (fuel : nat) (env : DatabaseEnv) (execID : string) (polls : nat)
    (tr : list Call) : option (option error * list Call) :=
  match fuel with
  | O => None
  | S fuel =>
      let tr := tr ++ [ContainerExecInspect execID] in
      match docker_ContainerExecInspect env polls execID with
      | inr err => Some (Some err, tr)
      | inl running =>
          if running then wait_exec fuel env execID (S polls) tr else Some (None, tr)
      end
  end.

(** How one exec went: not attached (with the error), attached but not
    started (its stream is closed when [CreateDatabase] returns), or
    started. *)
Inductive ExecRun : Type :=
| NotAttached (err : error)
| NotStarted (execID : string) (err : error)
| Started (execID : string).

(** One exec: create, attach, start. *)
Definition run_exec (env : DatabaseEnv) (containerID : string) (cmd : list string)
    (tr : list Call) : ExecRun * list Call :=
  let tr := tr ++ [ContainerExecCreate containerID cmd] in
  match docker_ContainerExecCreate env containerID cmd with
  | inr err => (NotAttached err, tr)
  | inl execID =>
      let tr := tr ++ [ContainerExecAttach execID] in
      match docker_ContainerExecAttach env execID with
      | Some err => (NotAttached err, tr)
      | None =>
          let tr := tr ++ [ContainerExecStart execID] in
          match docker_ContainerExecStart env execID with
          | Some err =>
              (NotStarted execID
                 (proxycontainer.wrap "unable to start the container, " err), tr)
          | None => (Started execID, tr)
          end
      end
  end.

(** What [CreateDatabase] returns. *)
Definition Created : Type := bool * string * string * string * string * option error.

Definition failed (err : error) : Created := (false, "", "", "", "", Some err).

(** [CreateDatabase] with [fuel] inspections at most: the values
    returned, or a panic, and the calls on the engine; [None] when the
    fuel ran out. *)
Definition CreateDatabase (fuel : nat) (env : DatabaseEnv)
  : option (Outcome Created * list Call) :=
  match output_Confirm env with
  | inr err => Some (Returned (failed err), [])
  | inl false => Some (Returned (false, "", "", "", "", None), [])
  | inl true =>
      let filter := [("label", labels_Nitro env);
                     ("label", labels_Type env +:+ "=database")] in
      let tr := [ContainerList filter false] in
      match docker_ContainerList env filter with
      | inr err => Some (Returned (failed err), tr)
      | inl containers =>
          if existsb (fun c => match first_name c with None => true | _ => false end)
               containers
          then Some (Panicked "index out of range [0] with length 0", tr)
          else
            let containers := sort_by_name containers in
            let engineOpts :=
              map (fun c => strings_TrimLeft (default "" (first_name c)) "/") containers in
            match select_engine env engineOpts with
            | inr err => Some (Returned (failed err), tr)
            | inl selected =>
                match at_index containers selected with
                | None => Some (Panicked "index out of range", tr)
                | Some chosen =>
                    let containerID := ListedID chosen in
                    let databaseEngine :=
                      default "" (ListedLabels chosen !! labels_DatabaseCompatibility env) in
                    if String.eqb containerID "" then
                      Some (Returned (failed (errorString "unable to get the container")), tr)
                    else
                      match ask_database env with
                      | inr err => Some (Returned (failed err), tr)
                      | inl db =>
                          let '(cmds, privileges) :=
                            if String.eqb databaseEngine "mysql"
                            then (mysql_create db, Some mysql_grant)
                            else (psql_create db, None) in
                          match run_exec env containerID cmds tr with
                          | (NotAttached err, tr) => Some (Returned (failed err), tr)
                          | (NotStarted e1 err, tr) =>
                              Some (Returned (failed err), tr ++ [CloseStream e1])
                          | (Started e1, tr) =>
                              let finish (closing : list Call) (tr : list Call) :=
                                let hostname :=
                                  strings_TrimLeft (default "" (first_name chosen)) "/" in
                                let tr := tr ++ [ContainerInspect containerID] in
                                match docker_ContainerInspect env containerID with
                                | inr err => (Returned (failed err), tr ++ closing)
                                | inl ports =>
                                    let port := first_port ports in
                                    let driver :=
                                      if String.eqb databaseEngine "postgres"
                                      then "pgsql" else "mysql" in
                                    (Returned (true, hostname, db, port, driver, None),
                                     tr ++ closing)
                                end in
                              match privileges with
                              | None => Some (finish [CloseStream e1] tr)
                              | Some privileges =>
                                  match run_exec env containerID privileges tr with
                                  | (NotAttached err, tr) =>
                                      Some (Returned (failed err), tr ++ [CloseStream e1])
                                  | (NotStarted e2 err, tr) =>
                                      Some (Returned (failed err),
                                            tr ++ [CloseStream e2; CloseStream e1])
                                  | (Started e2, tr) =>
                                      match wait_exec fuel env e2 0 tr with
                                      | None => None
                                      | Some (Some err, tr) =>
                                          Some (Returned (failed err),
                                                tr ++ [CloseStream e2; CloseStream e1])
                                      | Some (None, tr) =>
                                          Some (finish [CloseStream e2; CloseStream e1] tr)
                                      end
                                  end
                              end
                          end
                      end
                end
            end
      end
  end.

(** The commands of the execs created by a run, in order, each with the
    container it was created in. *)
Definition exec_commands (calls : list Call) : list (string * list string) :=
  omap (fun call => match call with
                    | ContainerExecCreate containerID cmd => Some (containerID, cmd)
                    | _ => None
                    end) calls.

(** The execs inspected by a run, in order. *)
Definition inspected_execs (calls : list Call) : list string :=
  omap (fun call => match call with
                    | ContainerExecInspect execID => Some execID
                    | _ => None
                    end) calls.

End prompt.

(** ** [package trust]: trusting the proxy's root certificate *)

Module trust.

Import engine.

Definition ErrNoContainers : error := errorString "there are no running containers".

Definition certificate_path : string := "/data/caddy/pki/authorities/local/root.crt".

(** One entry of the tar stream [CopyFromContainer] returns: its content,
    an error of [tr.Next()], or an error of reading its content. When the
    entries are used up [tr.Next()] returns [io.EOF]. *)
Inductive TarEntry : Type :=
| Entry (content : list Byte.byte)
| BadHeader (err : error)
| BadContent (err : error).

(** What the command does outside the process, as recorded in the trace.
    [Install] carries the content of the file at that moment. *)
Inductive Step : Type :=
| Docker (call : Call)
| TempFile (dir pattern : string)
| WriteFile (name : string) (data : list Byte.byte)
| Install (file goos : string) (content : option (list Byte.byte))
| CloseFile (name : string).

(** The engine, the file system and [pkg/certinstall]. The answer of
    [ContainerStatPath] ([stat.Name] or an error) depends on how many
    times the path has been asked for; [CopyFromContainer] gives the tar
    entries and [stat.Mode.IsRegular()], or an error. *)
Record TrustEnv := {
  labels_Nitro : string;
  labels_Proxy : string;
  docker_ContainerList : proxycontainer.Filters -> list Listed + error;
  docker_ContainerStatPath : nat -> string -> string -> string + error;
  docker_CopyFromContainer : string -> string -> (list TarEntry * bool) + error;
  os_TempDir : string;
  ioutil_TempFile : string -> string -> string + error;
  file_Write : list Byte.byte -> api.WriteOutcome;
  certinstall_Install : string -> string -> option (list Byte.byte) -> option error;
  runtime_GOOS : string
}.

Record State := {
  steps : list Step;
  files : gmap string (list Byte.byte)
}.

(** The loop that waits for the certificate: it goes on after an error
    and after a stat without a name. [None] when [fuel] stats did not find
    the file. *)
Fixpoint wait_for_certificate (fuel : nat) (env : TrustEnv) (containerID : string)
    (polls : nat) (tr : list Step) : option (list Step) :=
  match fuel with
  | O => None
  | S fuel =>
      let tr := tr ++ [Docker (ContainerStatPath containerID certificate_path)] in
      match docker_ContainerStatPath env polls containerID certificate_path with
      | inr _ => wait_for_certificate fuel env containerID (S polls) tr
      | inl name =>
          if negb (String.eqb name "") then Some tr
          else wait_for_certificate fuel env containerID (S polls) tr
      end
  end.

(** The loop over the tar entries: the buffer at the end, or the error. *)
Fixpoint read_archive (entries : list TarEntry) (buf : list Byte.byte)
  : list Byte.byte + error :=
  match entries with
  | [] => inl buf
  | BadHeader err :: _ => if is_EOF err then inl buf else inr err
  | BadContent err :: _ => inr err
  | Entry content :: entries => read_archive entries (buf ++ content)
  end.

(** [RunE] of the trust command on the file system [fs], with [fuel]
    stats at most: the error returned and the final state; [None] when
    the fuel ran out. A nil error wrapped by [%w] prints as
    [%!w(<nil>)]. *)
Definition RunE (fuel : nat) (env : TrustEnv) (fs : gmap string (list Byte.byte))
  : option (option error * State) :=
  let filter := [("label", labels_Nitro env); ("label", labels_Proxy env +:+ "=true")] in
  let tr := [Docker (ContainerList filter true)] in
  let done_ (ret : option error) (tr : list Step) (fs : gmap string (list Byte.byte)) :=
    Some (ret, {| steps := tr; files := fs |}) in
  match docker_ContainerList env filter with
  | inr err => done_ (Some (proxycontainer.wrap "unable to get the list of containers, " err))
                 tr fs
  | inl [] => done_ (Some ErrNoContainers) tr fs
  | inl (first :: _) =>
      let containerID := ListedID first in
      match wait_for_certificate fuel env containerID 0 tr with
      | None => None
      | Some tr =>
          let tr := tr ++ [Docker (CopyFromContainer containerID certificate_path)] in
          let failed (err : string) :=
            done_ (Some (errorString
                           ("unable to get the certificate from the container, " +:+ err)))
              tr fs in
          match docker_CopyFromContainer env containerID certificate_path with
          | inr err => failed (Error err)
          | inl (_, false) => failed "%!w(<nil>)"
          | inl (entries, true) =>
              match read_archive entries [] with
              | inr err => done_ (Some err) tr fs
              | inl buf =>
                  let tr := tr ++ [TempFile (os_TempDir env) "nitro-local-root-ca"] in
                  let created :=
                    match ioutil_TempFile env (os_TempDir env) "nitro-local-root-ca" with
                    | inr err => inr err
                    | inl name =>
                        match fs !! name with
                        | Some _ => inr (errorString "file exists")
                        | None => inl name
                        end
                    end in
                  match created with
                  | inr err =>
                      done_ (Some (proxycontainer.wrap "unable to create a temporary file, "
                                     err)) tr fs
                  | inl name =>
                      let fs := <[name := []]> fs in
                      let tr := tr ++ [WriteFile name buf] in
                      match file_Write env buf with
                      | api.WriteShort written err =>
                          done_ (Some (proxycontainer.wrap
                                         "unable to write the certificate to the temporary file, "
                                         err))
                            (tr ++ [CloseFile name]) (<[name := take written buf]> fs)
                      | api.WriteAll =>
                          let fs := <[name := buf]> fs in
                          let tr := tr ++ [Install name (runtime_GOOS env) (fs !! name)] in
                          done_ (certinstall_Install env name (runtime_GOOS env) (fs !! name))
                            (tr ++ [CloseFile name]) fs
                      end
                  end
              end
          end
      end
  end.

End trust.
(** ** Concrete inputs used by the examples *)

Module Examples.

Import caddy api.

(** The site of the specification's example, served by container [site]. *)
Definition one_site : ApplyRequest :=
  {| Sites := [("site", {| Hostname := "site.nitro"; Aliases := ""; Port := 8080 |})] |}.

(** A proxy that answers every configuration update with [status]. *)
Definition proxy_answering (status : Z) : ApplyEnv :=
  {| json_Marshal := fun _ => inl "{}";
     HTTP_Post := fun _ _ _ => inr status |}.

(** A proxy that cannot be reached. *)
Definition proxy_unreachable : ApplyEnv :=
  {| json_Marshal := fun _ => inl "{}";
     HTTP_Post := fun _ _ _ => inl (errorString "connection refused") |}.

Definition default_service : Service := {| Addr := "" |}.

(** [%q] of a string without characters that need escaping. *)
Definition quote (s : string) : string :=
  String (ascii_of_nat 34) s +:+ String (ascii_of_nat 34) EmptyString.

(** A world in which the dial to every database port connects
    ([port_open = true]) or is refused, every tool is found under the name
    of its engine, every write is complete, and every subprocess and the
    importer answer [outcome]; the import stream delivers [inbox]. *)
Definition db_world (port_open : bool) (outcome : ExecOutcome)
    (inbox : list (ImportDatabaseRequest + error)) : DbEnv :=
  {| portavail_Check := fun _ _ =>
       if port_open then None else Some (errorString "connection refused");
     DefaultImportToolFinder := fun engine _ => inl engine;
     command_run := fun _ _ _ => outcome;
     fmt_q := quote;
     os_TempDir := "/tmp";
     ioutil_TempFile := fun dir pattern => inl (dir +:+ "/" +:+ pattern +:+ "123");
     file_Write := fun _ _ => WriteAll;
     stream := inbox;
     Importer_Import := fun _ _ =>
       match outcome with
       | ExitOK => None
       | _ => Some (errorString "exit status 1")
       end;
     stream_SendAndClose := fun _ => None |}.

Definition shop : DatabaseInfo :=
  {| GetEngine := "mysql"; GetVersion := "8.0"; GetHostname := "mysql-8.0-3306.nitro";
     GetPort := "3306"; GetDatabase := "shop"; GetCompressed := false |}.

Definition bytes (s : string) : list Byte.byte := list_byte_of_string s.

(** The stream of the specification's example: the database fields, then
    two data chunks. *)
Definition shop_stream : list (ImportDatabaseRequest + error) :=
  [ inl {| Database := shop; GetData := [] |};
    inl {| Database := nil_DatabaseInfo; GetData := bytes "INSERT" |};
    inl {| Database := nil_DatabaseInfo; GetData := bytes " INTO t;" |} ].

(** The same stream with a data payload on the first message as well. *)
Definition shop_stream_leading_data : list (ImportDatabaseRequest + error) :=
  [ inl {| Database := shop; GetData := bytes "USE shop;" |};
    inl {| Database := nil_DatabaseInfo; GetData := bytes "INSERT" |};
    inl {| Database := nil_DatabaseInfo; GetData := bytes " INTO t;" |} ].

(** All data payloads a stream delivers, in arrival order. *)
Definition payloads (inbox : list (ImportDatabaseRequest + error)) : list Byte.byte :=
  concat (map (fun r => match r with inl req => GetData req | inr _ => [] end) inbox).

(** A stream that breaks after the first message. *)
Definition broken_stream : list (ImportDatabaseRequest + error) :=
  [ inl {| Database := shop; GetData := [] |};
    inr (errorString "transport is closing") ].

(** [db_world] on a disk that fails every write after [written] bytes. *)
Definition failing_disk (written : nat) (inbox : list (ImportDatabaseRequest + error))
  : DbEnv :=
  let w := db_world false ExitOK inbox in
  {| portavail_Check := portavail_Check w;
     DefaultImportToolFinder := DefaultImportToolFinder w;
     command_run := command_run w;
     fmt_q := fmt_q w;
     os_TempDir := os_TempDir w;
     ioutil_TempFile := ioutil_TempFile w;
     file_Write := fun _ _ => WriteShort written (errorString "no space left on device");
     stream := stream w;
     Importer_Import := Importer_Import w;
     stream_SendAndClose := stream_SendAndClose w |}.

(** A Docker engine that has the proxy image and the containers
    [containers], creates containers as [testingid] and starts any
    container; ports are rendered as [port/proto]; the process environment
    is [vars]. *)
Definition docker_world (vars : gmap string string)
    (containers : list proxycontainer.Container) : proxycontainer.DockerEnv :=
  {| proxycontainer.environ := vars;
     proxycontainer.docker_ImageList := fun _ => inl 1%nat;
     proxycontainer.docker_ImagePull := fun _ => None;
     proxycontainer.pull_ReadFrom := None;
     proxycontainer.docker_ContainerList := fun _ => inl containers;
     proxycontainer.docker_ContainerCreate := fun _ => inl "testingid";
     proxycontainer.docker_ContainerStart := fun _ => None;
     proxycontainer.nat_NewPort := fun proto port => (port +:+ "/" +:+ proto, None);
     proxycontainer.labels_Nitro := "com.craftcms.nitro";
     proxycontainer.labels_Type := "com.craftcms.nitro.type";
     proxycontainer.labels_Proxy := "com.craftcms.nitro.proxy";
     proxycontainer.labels_ProxyVersion := "com.craftcms.nitro.proxy-version";
     proxycontainer.version_Version := "2.0.0-beta.2" |}.

(** The proxy container as the engine lists it, in state [state]. *)
Definition proxy_in (state : string) : proxycontainer.Container :=
  {| proxycontainer.ID := "4f5ac1";
     proxycontainer.Names := ["/nitro-proxy"];
     proxycontainer.State := state |}.

(** Some other container of the environment. *)
Definition a_site_container : proxycontainer.Container :=
  {| proxycontainer.ID := "9b01de";
     proxycontainer.Names := ["/site.nitro"];
     proxycontainer.State := "running" |}.

End Examples.

(** ** Proof automation *)

(** Membership of a call in a trace built from appends and conses. *)
Ltac calls_solver :=
  simpl in *;
  rewrite ?elem_of_app, ?elem_of_cons, ?elem_of_nil in *;
  naive_solver.


(** ** More concrete inputs *)

Module MoreExamples.

Import proxycontainer engine.

(** An engine on which every step of [Composer] succeeds. *)
Definition composer_world : client.ComposerEnv :=
  {| client.docker_ImagePull := fun _ => None;
     client.docker_ContainerCreate := fun _ _ _ _ => inl "c0ffee";
     client.docker_ContainerAttach := fun _ => None;
     client.docker_ContainerStart := fun _ => None;
     client.stdcopy_StdCopy := fun _ => None |}.

Definition listed (id name : string) : Listed :=
  {| ListedID := id; ListedNames := [name]; ListedLabels := ∅ |}.

(** An engine that lists [containers] and stops every container but the
    one with ID [stuck]. *)
Definition stop_world (containers : list Listed) (stuck : string) : stop.StopEnv :=
  {| stop.labels_Environment := "com.craftcms.nitro.environment";
     stop.docker_ContainerList := fun _ => inl containers;
     stop.docker_ContainerStop := fun id =>
       if String.eqb id stuck then Some (errorString "timeout") else None |}.

(** A user who accepts every default and picks the first PHP version,
    on a machine where the site directory is [/home/oli/dev/shop]. *)
Definition site_world : prompt.SiteEnv (list prompt.Site) :=
  {| prompt.os_PathSeparator := "/"%char;
     prompt.filepath_Join := fun dir => dir;
     prompt.environ := ∅;
     prompt.output_Ask := fun _ default => inl default;
     prompt.filepath_Abs := fun dir => inl dir;
     prompt.webroot_Find := fun _ => inl "";
     prompt.phpversions_Versions := ["8.0"; "7.4"];
     prompt.output_Select := fun _ _ => inl 0%Z;
     prompt.config_Load := fun _ => inl [];
     prompt.config_AddSite := fun cfg site => inl (cfg ++ [site]);
     prompt.config_Save := fun _ => None |}.

(** A database container as the engine lists it. *)
Definition database_container (id name engine : string) : Listed :=
  {| ListedID := id; ListedNames := [name];
     ListedLabels := {[ "com.craftcms.nitro.database-compatibility" := engine ]} |}.

(** A user who confirms, picks option [pick] and names the database
    "shop", on an engine that lists a postgres and a mysql container and
    reports an exec as running for the first two inspections. *)
Definition database_world (pick : Z) : prompt.DatabaseEnv :=
  {| prompt.labels_Nitro := "com.craftcms.nitro";
     prompt.labels_Type := "com.craftcms.nitro.type";
     prompt.labels_DatabaseCompatibility := "com.craftcms.nitro.database-compatibility";
     prompt.output_Confirm := inl true;
     prompt.docker_ContainerList := fun _ =>
       inl [database_container "p1" "/postgres-13-5432.nitro" "postgres";
            database_container "m1" "/mysql-8.0-3306.nitro" "mysql"];
     prompt.select_engine := fun _ => inl pick;
     prompt.ask_database := inl "shop";
     prompt.docker_ContainerExecCreate := fun _ cmd =>
       inl (if String.eqb (default "" (last cmd)) "-e GRANT ALL PRIVILEGES ON * TO 'nitro'@'%';"
            then "exec-grant" else "exec-create");
     prompt.docker_ContainerExecAttach := fun _ => None;
     prompt.docker_ContainerExecStart := fun _ => None;
     prompt.docker_ContainerExecInspect := fun polls _ => inl (polls <? 2)%nat;
     prompt.docker_ContainerInspect := fun _ => inl ["3306"] |}.

(** An engine whose proxy has its certificate ready at the third stat,
    in a tar stream of one entry, on a machine where everything works. *)
Definition trust_world : trust.TrustEnv :=
  {| trust.labels_Nitro := "com.craftcms.nitro";
     trust.labels_Proxy := "com.craftcms.nitro.proxy";
     trust.docker_ContainerList := fun _ => inl [listed "4f5ac1" "/nitro-proxy"];
     trust.docker_ContainerStatPath := fun polls _ _ =>
       match polls with
       | O => inr (errorString "no such file")
       | S O => inl ""
       | _ => inl "root.crt"
       end;
     trust.docker_CopyFromContainer := fun _ _ =>
       inl ([trust.Entry (Examples.bytes "-----BEGIN CERTIFICATE-----")], true);
     trust.os_TempDir := "/tmp";
     trust.ioutil_TempFile := fun dir pattern => inl (dir +:+ "/" +:+ pattern +:+ "42");
     trust.file_Write := fun _ => api.WriteAll;
     trust.certinstall_Install := fun _ _ _ => None;
     trust.runtime_GOOS := "linux" |}.

End MoreExamples.
(** * Properties *)

Import caddy api.

(** ** Go helpers *)

Section Strings.

Variable sep : ascii.

Lemma strings_Split_nonempty (s : string) : strings_Split s sep ≠ [].
Proof.
  destruct s as [|c s]; simpl; [done|].
  destruct (Ascii.eqb c sep); [done|].
  by destruct (strings_Split s sep).
Qed.

(** A string without separators is a single field. *)
Lemma strings_Split_plain (s : string) :
  contains_byte sep s = false → strings_Split s sep = [s].
Proof.
  induction s as [|c s IH]; simpl; [done|].
  intros [Hc Hs]%orb_false_elim. rewrite Hc, (IH Hs). done.
Qed.

(** A separator after a separator-free prefix ends the first field. *)
Lemma strings_Split_field (x rest : string) :
  contains_byte sep x = false →
  strings_Split (x +:+ String sep rest) sep = x :: strings_Split rest sep.
Proof.
  induction x as [|c x IH]; simpl.
  - intros _. by rewrite Ascii.eqb_refl.
  - intros [Hc Hx]%orb_false_elim. rewrite Hc, (IH Hx). done.
Qed.

(** Splitting undoes joining when no element contains the separator. *)
Lemma strings_Split_Join (l : list string) :
  l ≠ [] → Forall (fun x => contains_byte sep x = false) l →
  strings_Split (strings_Join l sep) sep = l.
Proof.
  induction l as [|x l IH]; [done|]. intros _ Hall.
  apply Forall_cons in Hall as [Hx Hl].
  destruct l as [|y l].
  - simpl. by apply strings_Split_plain.
  - change (strings_Join (x :: y :: l) sep)
      with (x +:+ String sep (strings_Join (y :: l) sep)).
    rewrite strings_Split_field by done. f_equal. by apply IH.
Qed.

End Strings.

(** ** Route reconciler *)

Section RouteReconciler.

Implicit Types (request : ApplyRequest) (sites : list (string * Site)).

(** The loop of [Apply] appends: started on [acc], it ends with [acc]
    followed by one route per entry. *)
Lemma build_routes_from sites (acc : list ServerRoute) :
  fold_left (fun routes entry => routes ++ [site_route entry]) sites acc
  = acc ++ map site_route sites.
Proof.
  revert acc; induction sites as [|entry sites IH]; intros acc; simpl.
  - by rewrite app_nil_r.
  - rewrite IH. by rewrite <- app_assoc.
Qed.

Lemma build_routes_map sites : build_routes sites = map site_route sites.
Proof. unfold build_routes. by rewrite build_routes_from. Qed.

Lemma build_routes_length sites : length (build_routes sites) = length sites.
Proof. rewrite build_routes_map. apply length_map. Qed.

Lemma build_routes_lookup sites (i : nat) :
  build_routes sites !! i = site_route <$> sites !! i.
Proof. rewrite build_routes_map. apply list_lookup_fmap. Qed.

Lemma site_hosts_aliases (site : Site) :
  site_hosts site = Hostname site :: site_aliases site.
Proof. unfold site_hosts, site_aliases. by destruct (String.eqb _ _). Qed.

(** A site whose aliases are the comma-joined list [aliases] (every alias
    non-empty and free of commas) answers to exactly those aliases. *)
Lemma site_aliases_Join (hostname : string) (aliases : list string) (port : Z) :
  Forall (fun a => a ≠ "" ∧ contains_byte "," a = false) aliases →
  site_aliases {| Hostname := hostname;
                  Aliases := strings_Join aliases ","; Port := port |} = aliases.
Proof.
  intros Hall. unfold site_aliases; simpl.
  destruct aliases as [|a aliases]; [done|].
  assert (strings_Join (a :: aliases) "," ≠ "") as Hne.
  { apply Forall_cons in Hall as [[Ha _] _].
    destruct aliases; simpl; [done|]. by destruct a. }
  apply String.eqb_neq in Hne. rewrite Hne.
  apply strings_Split_Join; [done|].
  eapply Forall_impl; [exact Hall|]. by intros ? [_ ?].
Qed.

(** [Apply] shows the environment one document, [build_update request],
    and posts what the marshaller made of it to [config_endpoint]. *)
Lemma Apply_marshals_update (env : ApplyEnv) (svc : Service) request :
  Apply env svc request =
  match json_Marshal env (build_update request) with
  | inr err => (None, Some err)
  | inl content =>
      match HTTP_Post env (config_endpoint svc) "application/json" content with
      | inl err =>
          (Some {| Message := "Error updating Caddy API, err: " +:+ Error err;
                   Error_ := true |}, Some err)
      | inr code =>
          if code =? 200 then
            (Some {| Message := "Successfully applied changes, sites: "
                                +:+ fmt_d (Z.of_nat (length (Sites request)));
                     Error_ := false |}, None)
          else
            (Some {| Message := "Received " +:+ fmt_d code +:+ " response from Caddy API";
                     Error_ := true |}, None)
      end
  end.
Proof.
  unfold Apply, config_endpoint, http_StatusOK.
  destruct (json_Marshal _ _); [|done].
  destruct (HTTP_Post _ _ _ _) as [|code]; [done|].
  by destruct (code =? 200).
Qed.


(** C5. For a non-empty site list the document has exactly two server
    blocks; the HTTPS block listens on :443 and has one route per site;
    the HTTP block listens on :80 and has one route more, the last being
    the static file-server fallback; the route of every site is terminal,
    matches the hosts [hostname :: aliases] and reverse-proxies to
    [upstreamKey:port]. *)
Theorem Apply_document_shape request :
  Sites request ≠ [] →
  let update := build_update request in
  let n := length (Sites request) in
  servers update = [HTTPS update; HTTP update]
  ∧ Listen (HTTPS update) = [":443"]
  ∧ length (Routes (HTTPS update)) = n
  ∧ Listen (HTTP update) = [":80"]
  ∧ length (Routes (HTTP update)) = S n
  ∧ last (Routes (HTTP update)) = Some welcome_route
  ∧ Terminal welcome_route = true
  ∧ map Handler (Handle welcome_route) = ["vars"; "file_server"]
  ∧ map Root (Handle welcome_route) = ["/var/www/html"; "/var/www/html"]
  ∧ ∀ (i : nat) (k : string) (site : Site),
      Sites request !! i = Some (k, site) →
      ∃ route,
        Routes (HTTPS update) !! i = Some route
        ∧ Routes (HTTP update) !! i = Some route
        ∧ Terminal route = true
        ∧ Match_ route = [ {| Host := Hostname site :: site_aliases site |} ]
        ∧ (∀ h, h ∈ site_hosts site ↔ h = Hostname site ∨ h ∈ site_aliases site)
        ∧ Handle route = [ reverse_proxy_to (k +:+ ":" +:+ fmt_d (Port site)) ].
Proof.
  intros _. simpl. rewrite build_routes_map.
  split_and!; try done.
  - unfold servers; simpl. by rewrite build_routes_map.
  - apply length_map.
  - rewrite length_app, length_map. simpl. lia.
  - apply last_snoc.
  - intros i k site Hi. exists (site_route (k, site)).
    assert (map site_route (Sites request) !! i = Some (site_route (k, site))) as Hr.
    { rewrite list_lookup_fmap, Hi. done. }
    split_and!; try done.
    + by apply lookup_app_l_Some.
    + simpl. by rewrite site_hosts_aliases.
    + intros h. rewrite site_hosts_aliases. apply elem_of_cons.
Qed.

Lemma Apply_document_shape_witness :
  Sites Examples.one_site ≠ []
  ∧ Routes (HTTPS (build_update Examples.one_site))
    = [ {| Handle := [ reverse_proxy_to "site:8080" ];
           Match_ := [ {| Host := ["site.nitro"] |} ];
           Terminal := true |} ]
  ∧ length (Routes (HTTP (build_update Examples.one_site))) = 2%nat.
Proof.
  assert (Sites Examples.one_site ≠ []) as Hne by done.
  split; [exact Hne|].
  destruct (Apply_document_shape Examples.one_site Hne)
    as (_ & _ & _ & _ & Hlen & _).
  split; [reflexivity | exact Hlen].
Defined.

(** C6. When the POST completes with a status outside 200..299, [Apply]
    returns a response with [Error_ = true] and a message naming the
    status, together with a nil error; when the POST fails in transport,
    [Apply] returns that error (with a response that also has
    [Error_ = true]). *)
Theorem Apply_soft_and_hard_failure (env : ApplyEnv) (svc : Service) request
    (content : string) :
  json_Marshal env (build_update request) = inl content →
  (∀ code : Z,
     HTTP_Post env (config_endpoint svc) "application/json" content = inr code →
     ¬ (200 ≤ code ≤ 299) →
     Apply env svc request
     = (Some {| Message := "Received " +:+ fmt_d code +:+ " response from Caddy API";
                Error_ := true |}, None))
  ∧ (∀ err : error,
       HTTP_Post env (config_endpoint svc) "application/json" content = inl err →
       ∃ response, Apply env svc request = (Some response, Some err)
                   ∧ Error_ response = true).
Proof.
  intros Hm. rewrite Apply_marshals_update, Hm. split.
  - intros code -> Hcode.
    destruct (Z.eqb_spec code 200) as [->|_]; [lia|done].
  - intros err ->. eexists; split; [reflexivity|done].
Qed.

Lemma Apply_soft_and_hard_failure_witness :
  Apply (Examples.proxy_answering 500) Examples.default_service Examples.one_site
  = (Some {| Message := "Received 500 response from Caddy API"; Error_ := true |}, None)
  ∧ snd (Apply Examples.proxy_unreachable Examples.default_service Examples.one_site)
    = Some (errorString "connection refused").
Proof.
  split.
  - apply (proj1 (Apply_soft_and_hard_failure (Examples.proxy_answering 500)
                    Examples.default_service Examples.one_site "{}" eq_refl) 500);
      [reflexivity | lia].
  - destruct (proj2 (Apply_soft_and_hard_failure Examples.proxy_unreachable
                       Examples.default_service Examples.one_site "{}" eq_refl)
                (errorString "connection refused") eq_refl) as (response & -> & _).
    reflexivity.
Defined.

(** C10. For the empty site list the document still has its two server
    blocks, the HTTPS one without routes and the HTTP one with the
    terminal static file-server fallback as its only route; when the proxy
    answers 200, [Apply] returns [Error_ = false] and reports 0 sites. *)
Theorem Apply_empty_site_list (env : ApplyEnv) (svc : Service) (content : string) :
  let request := {| Sites := [] |} in
  let update := build_update request in
  servers update = [ {| Listen := [":443"]; Routes := [] |};
                     {| Listen := [":80"]; Routes := [welcome_route] |} ]
  ∧ Terminal welcome_route = true
  ∧ map Handler (Handle welcome_route) = ["vars"; "file_server"]
  ∧ (json_Marshal env update = inl content →
     HTTP_Post env (config_endpoint svc) "application/json" content = inr 200 →
     Apply env svc request
     = (Some {| Message := "Successfully applied changes, sites: 0";
                Error_ := false |}, None)).
Proof.
  split_and!; try done.
  intros Hm Hp. rewrite Apply_marshals_update. simpl in *. by rewrite Hm, Hp.
Qed.

Lemma Apply_empty_site_list_witness :
  Apply (Examples.proxy_answering 200) Examples.default_service {| Sites := [] |}
  = (Some {| Message := "Successfully applied changes, sites: 0"; Error_ := false |}, None).
Proof.
  apply (Apply_empty_site_list (Examples.proxy_answering 200)
           Examples.default_service "{}"); reflexivity.
Defined.

End RouteReconciler.

(** ** Database provisioning *)

Section DatabaseProvisioning.

Implicit Types (env : DbEnv) (st : ImportState) (tr : list Event)
  (fs : gmap string (list Byte.byte)).

Lemma process_invocations_app tr tr' :
  process_invocations (tr ++ tr') = (process_invocations tr + process_invocations tr')%nat.
Proof. unfold process_invocations. by rewrite filter_app, length_app. Qed.


Lemma process_invocations_stream tr :
  Forall (fun e => is_stream_event e = true) tr → process_invocations tr = 0%nat.
Proof.
  induction 1 as [|e tr He _ IH]; [done|].
  change (e :: tr) with ([e] ++ tr). rewrite process_invocations_app, IH.
  by destruct e.
Qed.


(** When every write is complete and the stream delivers the messages
    [rest] and then ends, the loop appends their payloads to the file, in
    order, and ends without error. *)
Lemma receive_loop_complete env (name : string) (rest : list ImportDatabaseRequest) :
  (∀ tr data, file_Write env tr data = WriteAll) →
  ∀ st content, files st !! name = Some content →
  receive_loop env name (map inl rest) st
  = (None,
     {| trace := trace st
                 ++ flat_map (fun m => [EvRecv; EvWrite name (GetData m)]) rest
                 ++ [EvRecv];
        files := <[name := content ++ concat (map GetData rest)]> (files st) |}).
Proof.
  intros Hw. induction rest as [|m rest IH]; intros st content Hname; simpl.
  - unfold log. rewrite app_nil_r, insert_id by done. done.
  - rewrite Hw.
    erewrite IH; [|simpl; rewrite Hname; apply lookup_insert_eq].
    simpl. rewrite Hname, insert_insert_eq, <- !app_assoc. done.
Qed.

(** The options are the fields of the first message. *)
Lemma first_message_options_fields (name : string) (req : ImportDatabaseRequest) :
  first_message_options name req
  = {| database.Engine := GetEngine (Database req);
       database.Version := GetVersion (Database req);
       database.Hostname := GetHostname (Database req);
       database.Port := GetPort (Database req);
       database.DatabaseName := GetDatabase (Database req);
       database.File := name;
       database.Compressed := GetCompressed (Database req) |}.
Proof. unfold first_message_options; simpl. by destruct (GetCompressed _). Qed.

(** Every mysql [AddDatabase] that passes the gate and whose create
    command succeeds runs the create command a second time. *)
Lemma AddDatabase_mysql_trace env (req : DatabaseInfo) (refused : error) (tool : string) :
  GetEngine req = "mysql" →
  portavail_Check env (GetHostname req) (GetPort req) = Some refused →
  DefaultImportToolFinder env "mysql" (GetVersion req) = inl tool →
  let create := ["--user=nitro"; "--host=" +:+ GetHostname req; "-pnitro";
                 "-e CREATE DATABASE IF NOT EXISTS " +:+ GetDatabase req +:+ ";"] in
  fst (exec env [EvDial (GetHostname req) (GetPort req);
                 EvFindTool "mysql" (GetVersion req)] tool create) = None →
  snd (AddDatabase env req)
  = [EvDial (GetHostname req) (GetPort req); EvFindTool "mysql" (GetVersion req);
     EvCommand tool create; EvCommand tool create].
Proof.
  intros He Hp Ht create Hx. unfold AddDatabase. rewrite He, Hp, Ht. simpl.
  fold create. destruct (exec env _ tool create) as [[err|] tr] eqn:Hexec; [done|].
  assert (tr = [EvDial (GetHostname req) (GetPort req);
                EvFindTool "mysql" (GetVersion req); EvCommand tool create]) as ->.
  { unfold exec in Hexec. by destruct (command_run _ _ _ _); inversion Hexec. }
  unfold exec. by destruct (command_run _ _ _ _).
Qed.

(** C1 (as the code has it). The options handed to the importer are the
    fields of the first message alone, and when the importer is entered
    the temp file holds the payloads of the messages after the first,
    concatenated in arrival order; nothing before that point launches a
    process. The payload of the first message is not written. *)
Theorem ImportDatabase_file_content env fs (name : string)
    (first : ImportDatabaseRequest) (rest : list ImportDatabaseRequest)
    (refused : error) :
  ioutil_TempFile env (os_TempDir env) "nitro-db-import" = inl name →
  fs !! name = None →
  stream env = inl first :: map inl rest →
  (∀ tr data, file_Write env tr data = WriteAll) →
  portavail_Check env (GetHostname (Database first)) (GetPort (Database first))
  = Some refused →
  let info := Database first in
  let opts := {| database.Engine := GetEngine info;
                 database.Version := GetVersion info;
                 database.Hostname := GetHostname info;
                 database.Port := GetPort info;
                 database.DatabaseName := GetDatabase info;
                 database.File := name;
                 database.Compressed := GetCompressed info |} in
  let content := concat (map GetData rest) in
  let before := [EvTempFile (os_TempDir env) "nitro-db-import"; EvRecv]
                ++ flat_map (fun m => [EvRecv; EvWrite name (GetData m)]) rest
                ++ [EvRecv; EvDial (GetHostname info) (GetPort info)] in
  (∃ after, trace (snd (ImportDatabase env fs))
            = before ++ EvImport opts (Some content) :: after)
  ∧ process_invocations before = 0%nat
  ∧ imported_content (trace (snd (ImportDatabase env fs))) = Some content.
Proof.
  intros Htmp Hfresh Hstream Hw Hdial info opts content before.
  assert (∃ after, trace (snd (ImportDatabase env fs))
                   = before ++ EvImport opts (Some content) :: after) as Htrace.
  { unfold ImportDatabase. rewrite Htmp, Hfresh.
    unfold ImportDatabase_body. rewrite Hstream.
    erewrite receive_loop_complete; [|done|simpl; apply lookup_insert_eq].
    rewrite first_message_options_fields. cbn -[flat_map concat].
    rewrite Hdial, lookup_insert_eq. cbn -[flat_map concat].
    fold info content opts.
    destruct (Importer_Import _ _ _); cbn -[flat_map concat];
      eexists; unfold before; rewrite <- !app_assoc; cbn -[flat_map concat];
      repeat f_equal. }
  assert (process_invocations before = 0%nat) as Hquiet.
  { unfold before. rewrite !process_invocations_app.
    rewrite (process_invocations_stream (flat_map _ _)); [done|].
    clear. induction rest; simpl; repeat constructor; done. }
  split_and!; [done..|].
  destruct Htrace as (after & ->).
  assert (∀ tr tr', Forall (fun e => launches_process e = false) tr →
                    imported_content (tr ++ EvImport opts (Some content) :: tr')
                    = Some content) as Hfirst.
  { clear. intros tr tr'. induction 1 as [|e tr He _ IH]; [done|].
    simpl. by destruct e. }
  apply Hfirst. unfold before.
  apply Forall_app; split; [by repeat constructor|].
  apply Forall_app; split; [|by repeat constructor].
  clear. induction rest; simpl; repeat constructor; done.
Qed.

Lemma ImportDatabase_file_content_witness :
  imported_content
    (trace (snd (ImportDatabase (Examples.db_world false ExitOK Examples.shop_stream) ∅)))
  = Some (Examples.bytes "INSERT INTO t;").
Proof.
  apply (ImportDatabase_file_content
           (Examples.db_world false ExitOK Examples.shop_stream) ∅
           "/tmp/nitro-db-import123"
           {| Database := Examples.shop; GetData := [] |}
           [ {| Database := nil_DatabaseInfo; GetData := Examples.bytes "INSERT" |};
             {| Database := nil_DatabaseInfo; GetData := Examples.bytes " INTO t;" |} ]
           (errorString "connection refused")); reflexivity.
Defined.

(** C1, as stated, fails when the first message carries data: the file
    the importer sees lacks that payload. *)
Lemma ImportDatabase_first_payload_dropped :
  imported_content
    (trace (snd (ImportDatabase
                   (Examples.db_world false ExitOK Examples.shop_stream_leading_data) ∅)))
  = Some (Examples.bytes "INSERT INTO t;")
  ∧ imported_content
      (trace (snd (ImportDatabase
                     (Examples.db_world false ExitOK Examples.shop_stream_leading_data) ∅)))
    ≠ Some (Examples.payloads Examples.shop_stream_leading_data).
Proof. split; [reflexivity | discriminate]. Qed.



(** C3 (what the code does instead). On a mysql [AddDatabase] that passes
    the gate with every command succeeding, the second command run is the
    CREATE DATABASE command again, argument for argument; no GRANT is
    issued. *)
Lemma AddDatabase_mysql_repeats_create :
  AddDatabase (Examples.db_world false ExitOK []) Examples.shop
  = (inl ("Database " +:+ Examples.quote "shop" +:+ " added to "
          +:+ Examples.quote "mysql-8.0-3306.nitro" +:+ " successfully"),
     [ EvDial "mysql-8.0-3306.nitro" "3306";
       EvFindTool "mysql" "8.0";
       EvCommand "mysql" ["--user=nitro"; "--host=mysql-8.0-3306.nitro"; "-pnitro";
                          "-e CREATE DATABASE IF NOT EXISTS shop;"];
       EvCommand "mysql" ["--user=nitro"; "--host=mysql-8.0-3306.nitro"; "-pnitro";
                          "-e CREATE DATABASE IF NOT EXISTS shop;"] ]).
Proof. reflexivity. Qed.

(** C7. Once the temp file has been created, it is gone from the file
    system when [ImportDatabase] returns, whatever the call returns: the
    last two things the call does are removing and closing it. *)
Theorem ImportDatabase_removes_temp_file env fs (name : string) :
  ioutil_TempFile env (os_TempDir env) "nitro-db-import" = inl name →
  fs !! name = None →
  files (snd (ImportDatabase env fs)) !! name = None
  ∧ ∃ before, trace (snd (ImportDatabase env fs))
              = before ++ [EvRemove name; EvClose name].
Proof.
  intros Htmp Hfresh. unfold ImportDatabase. rewrite Htmp, Hfresh.
  destruct (ImportDatabase_body _ _ _) as [ret st]. simpl. split.
  - apply lookup_delete_eq.
  - exists (trace st). by rewrite <- app_assoc.
Qed.

Lemma ImportDatabase_removes_temp_file_witness :
  files (snd (ImportDatabase (Examples.db_world false ExitOK Examples.shop_stream) ∅))
    !! "/tmp/nitro-db-import123" = None.
Proof.
  apply (ImportDatabase_removes_temp_file
           (Examples.db_world false ExitOK Examples.shop_stream) ∅
           "/tmp/nitro-db-import123"); reflexivity.
Defined.

(** The exit paths of [ImportDatabase] one by one: a successful import, a
    stream that breaks, a disk that fails, a rejecting gate and a failing
    importer each end with the temp file removed. *)
Lemma ImportDatabase_exit_paths :
  let temp := "/tmp/nitro-db-import123" in
  let success := ImportDatabase (Examples.db_world false ExitOK Examples.shop_stream) ∅ in
  let broken := ImportDatabase (Examples.db_world false ExitOK Examples.broken_stream) ∅ in
  let disk := ImportDatabase (Examples.failing_disk 2 Examples.shop_stream) ∅ in
  let gate := ImportDatabase (Examples.db_world true ExitOK Examples.shop_stream) ∅ in
  let tool := ImportDatabase
                (Examples.db_world false (WaitExitStatus 1) Examples.shop_stream) ∅ in
  (fst success = None ∧ files (snd success) !! temp = None)
  ∧ (fst broken = Some (statusInternal "unable to create the stream: transport is closing")
     ∧ files (snd broken) !! temp = None)
  ∧ (fst disk = Some (statusInternal "unable to write content to the temp file")
     ∧ files (snd disk) !! temp = None)
  ∧ (fst gate = Some (not_available "mysql-8.0-3306.nitro" "3306" None)
     ∧ files (snd gate) !! temp = None)
  ∧ (fst tool = Some (statusInternal "error importing the database exit status 1")
     ∧ files (snd tool) !! temp = None).
Proof. repeat split. Qed.

End DatabaseProvisioning.

(** ** Proxy container lifecycle *)

Import proxycontainer.

Section ProxyLifecycle.

Implicit Types (env : DockerEnv) (c : Container) (containers : list Container).

(** The inner loop of [Create] over the names of one container. *)
Lemma find_proxy_names c (names : list string) (acc : string * bool) :
  fold_left
    (fun '(containerID, proxyRunning) n =>
       if is_proxy_name n then
         (ID c, if String.eqb (State c) "running" then true else proxyRunning)
       else (containerID, proxyRunning))
    names acc
  = if existsb is_proxy_name names
    then (ID c, if String.eqb (State c) "running" then true else snd acc)
    else acc.
Proof.
  revert acc; induction names as [|n names IH]; intros [containerID proxyRunning];
    simpl; [done|].
  rewrite IH. destruct (is_proxy_name n); simpl; [|done].
  destruct (existsb is_proxy_name names); simpl; [|done].
  by destruct (String.eqb (State c) "running").
Qed.

(** With [c] the only listed container that carries the proxy's name, the
    loops end with its ID and with whether it is running. *)
Lemma find_proxy_unique containers c :
  c ∈ containers →
  existsb is_proxy_name (Names c) = true →
  (∀ c', c' ∈ containers → existsb is_proxy_name (Names c') = true → c' = c) →
  find_proxy containers = (ID c, String.eqb (State c) "running").
Proof.
  intros Hin Hc Huniq. unfold find_proxy.
  set (found := (ID c, String.eqb (State c) "running")).
  set (step := fun (acc : string * bool) (c0 : Container) => fold_left _ (Names c0) acc).
  assert (∀ l acc, (∀ c', c' ∈ l → existsb is_proxy_name (Names c') = true → c' = c) →
            (acc = found → fold_left step l acc = found)
            ∧ (acc = ("", false) → c ∈ l → fold_left step l acc = found)) as Hloop.
  { clear Hin Huniq.
    induction l as [|c0 l IH]; intros acc Hl; simpl.
    - split; [done|]. by intros _ ?%elem_of_nil.
    - assert (∀ c', c' ∈ l → existsb is_proxy_name (Names c') = true → c' = c) as Hl'.
      { intros c' ?. apply Hl. by right. }
      unfold step at 2 4. rewrite find_proxy_names.
      destruct (existsb is_proxy_name (Names c0)) eqn:Hc0.
      + assert (c0 = c) as -> by (apply Hl; [left|done]).
        split; intros ->; simpl.
        * apply (proj1 (IH _ Hl')). unfold found.
          by destruct (String.eqb (State c) "running").
        * intros _. apply (proj1 (IH _ Hl')). unfold found.
          by destruct (String.eqb (State c) "running").
      + split; [apply (proj1 (IH _ Hl'))|].
        intros -> [->|Hin]%elem_of_cons; [congruence|].
        by apply (proj2 (IH _ Hl')). }
  by apply (Hloop containers ("", false) Huniq).
Qed.

Lemma ensure_image_calls env :
  Forall (fun call => is_image_call call = true) (snd (ensure_image env)).
Proof.
  unfold ensure_image.
  destruct (negb _); [|by constructor].
  destruct (docker_ImageList _ _) as [images|]; [|by repeat constructor].
  destruct (Nat.eqb images 0); [|by repeat constructor].
  destruct (docker_ImagePull _ _); [by repeat constructor|].
  destruct (pull_ReadFrom _); by repeat constructor.
Qed.

(** No path of [Create] calls [ContainerRemove]. *)
Lemma Create_never_removes env (volumeName networkID : string) :
  Forall (fun call => is_remove_call call = false) (snd (Create env volumeName networkID)).
Proof.
  assert (Forall (fun call => is_remove_call call = false) (snd (ensure_image env))) as Himg.
  { eapply Forall_impl; [apply ensure_image_calls|]. by intros []. }
  unfold Create. destruct (ensure_image env) as [[err|] tr]; simpl in Himg; [done|].
  destruct (docker_ContainerList _ _) as [containers|];
    [|by apply Forall_app; split; [|repeat constructor]].
  destruct (find_proxy containers) as [containerID proxyRunning].
  destruct (String.eqb containerID "").
  - destruct (proxy_ports env) as [[[httpPort httpsPort] apiPort]|];
      [|by apply Forall_app; split; [|repeat constructor]].
    destruct (docker_ContainerCreate _ _);
      [|by repeat (apply Forall_app; split); repeat constructor].
    destruct proxyRunning; simpl;
      [by repeat (apply Forall_app; split); repeat constructor|].
    destruct (docker_ContainerStart _ _);
      by repeat (apply Forall_app; split); repeat constructor.
  - destruct proxyRunning; simpl;
      [by repeat (apply Forall_app; split); repeat constructor|].
    destruct (docker_ContainerStart _ _);
      by repeat (apply Forall_app; split); repeat constructor.
Qed.

(** No path of [FindAndStart] calls [ContainerRemove]. *)
Lemma FindAndStart_never_removes env :
  Forall (fun call => is_remove_call call = false) (snd (FindAndStart env)).
Proof.
  unfold FindAndStart.
  destruct (docker_ContainerList _ _) as [containers|]; [|by repeat constructor].
  assert (∀ tr, Forall (fun call => is_remove_call call = false) tr →
                Forall (fun call => is_remove_call call = false)
                  (snd (find_and_start env containers tr))) as Hloop.
  { induction containers as [|c containers IH]; intros tr Htr; simpl; [done|].
    destruct (existsb _ _); [|by apply IH].
    destruct (negb _); [|done].
    destruct (docker_ContainerStart _ _);
      by apply Forall_app; split; [|repeat constructor]. }
  apply Hloop. by repeat constructor.
Qed.

(** What the three ports are parsed from. *)
Lemma proxy_ports_inv env (httpPort httpsPort apiPort : string) :
  proxy_ports env = inl (httpPort, httpsPort, apiPort) →
  httpPort = fst (nat_NewPort env "tcp" (port_setting env "NITRO_HTTP_PORT" "80"))
  ∧ httpsPort = fst (nat_NewPort env "tcp" (port_setting env "NITRO_HTTPS_PORT" "443"))
  ∧ apiPort = fst (nat_NewPort env "tcp" (port_setting env "NITRO_API_PORT" "5000")).
Proof.
  unfold proxy_ports, port_setting. intros Hports.
  repeat (case_match; simplify_eq/=; try done);
    repeat match goal with
           | H : nat_NewPort _ _ _ = _ |- _ => rewrite H; clear H
           end; done.
Qed.

(** C8. When the engine lists a container that carries the proxy's name,
    [Create] makes no container-create call and starts no container but
    that one, and only when its state is not "running"; once the image
    check has passed it does start it exactly when its state is not
    "running", makes no other call after listing, and returns no error for
    a running proxy. No path of [Create] or [FindAndStart], in any
    environment, removes a container. (Container names are unique on an
    engine, so [c] is the only listed container with the name; its ID is
    not empty.) *)
Theorem Create_reuses_existing_proxy env (volumeName networkID : string)
    containers c :
  docker_ContainerList env (proxy_filter env) = inl containers →
  c ∈ containers →
  existsb is_proxy_name (Names c) = true →
  ID c ≠ "" →
  (∀ c', c' ∈ containers → existsb is_proxy_name (Names c') = true → c' = c) →
  let calls := snd (Create env volumeName networkID) in
  (∀ req, ContainerCreate req ∉ calls)
  ∧ (∀ containerID, ContainerStart containerID ∈ calls →
                    containerID = ID c ∧ State c ≠ "running")
  ∧ (fst (ensure_image env) = None →
     calls = snd (ensure_image env)
             ++ [ContainerList (proxy_filter env) true]
             ++ (if String.eqb (State c) "running" then []
                 else [ContainerStart (ID c)])
     ∧ ((ContainerStart (ID c) ∈ calls) ↔ (State c ≠ "running"))
     ∧ (State c = "running" → fst (Create env volumeName networkID) = None))
  ∧ (∀ env' (volumeName' networkID' containerID : string),
       (ContainerRemove containerID ∉ snd (Create env' volumeName' networkID'))
       ∧ (ContainerRemove containerID ∉ snd (FindAndStart env'))).
Proof.
  intros Hlist Hin Hname Hid Huniq calls.
  pose proof (ensure_image_calls env) as Himgcalls.
  rewrite Forall_forall in Himgcalls.
  assert (calls = snd (ensure_image env)
                  ++ match fst (ensure_image env) with
                     | Some _ => []
                     | None =>
                         [ContainerList (proxy_filter env) true]
                         ++ (if String.eqb (State c) "running" then []
                             else [ContainerStart (ID c)])
                     end) as Hcalls.
  { unfold calls, Create.
    destruct (ensure_image env) as [[err|] tr]; simpl; [by rewrite app_nil_r|].
    rewrite Hlist, (find_proxy_unique containers c) by done.
    apply String.eqb_neq in Hid. rewrite Hid. simpl.
    destruct (String.eqb (State c) "running"); simpl; [done|].
    destruct (docker_ContainerStart _ _); simpl; by rewrite <- app_assoc. }
  split_and!.
  - intros req. rewrite Hcalls. intros [Hreq|Hreq]%elem_of_app.
    + by apply Himgcalls in Hreq.
    + destruct (fst (ensure_image env)), (String.eqb (State c) "running");
        calls_solver.
  - intros containerID. rewrite Hcalls. intros [Hst|Hst]%elem_of_app.
    + by apply Himgcalls in Hst.
    + destruct (fst (ensure_image env));
        destruct (String.eqb_spec (State c) "running"); calls_solver.
  - intros Himg. rewrite Himg in Hcalls. split_and!; [done|..].
    + rewrite Hcalls. destruct (String.eqb_spec (State c) "running") as [Hrun|Hrun].
      * split; [|done]. intros [Hst|Hst]%elem_of_app.
        -- by apply Himgcalls in Hst.
        -- calls_solver.
      * split; [done|]. intros _. calls_solver.
    + intros Hrun. unfold Create.
      destruct (ensure_image env) as [[err|] tr]; simpl in Himg; [done|].
      rewrite Hlist, (find_proxy_unique containers c) by done.
      apply String.eqb_neq in Hid. rewrite Hid, Hrun. done.
  - intros env' volumeName' networkID' containerID. split; intros Hrm.
    + pose proof (Create_never_removes env' volumeName' networkID') as Hno.
      rewrite Forall_forall in Hno. by apply Hno in Hrm.
    + pose proof (FindAndStart_never_removes env') as Hno.
      rewrite Forall_forall in Hno. by apply Hno in Hrm.
Qed.

Lemma Create_reuses_existing_proxy_witness :
  snd (Create (Examples.docker_world ∅
                 [Examples.a_site_container; Examples.proxy_in "exited"])
         "nitro" "net1")
  = [ ImageList [("label", "com.craftcms.nitro=true");
                 ("reference", "craftcms/nitro-proxy:2.0.0-beta.2")];
      ContainerList [("label", "com.craftcms.nitro=true");
                     ("label", "com.craftcms.nitro.proxy=true")] true;
      ContainerStart "4f5ac1" ].
Proof.
  assert (∀ c', c' ∈ [Examples.a_site_container; Examples.proxy_in "exited"] →
                existsb is_proxy_name (Names c') = true →
                c' = Examples.proxy_in "exited") as Huniq.
  { intros c' Hc' Hname. apply elem_of_cons in Hc' as [->|Hc']; [done|].
    by apply list_elem_of_singleton in Hc'. }
  destruct (Create_reuses_existing_proxy
              (Examples.docker_world ∅
                 [Examples.a_site_container; Examples.proxy_in "exited"])
              "nitro" "net1"
              [Examples.a_site_container; Examples.proxy_in "exited"]
              (Examples.proxy_in "exited")) as (_ & _ & Hcalls & _);
    [reflexivity | by right; left | reflexivity | done | exact Huniq |].
  destruct (Hcalls eq_refl) as [-> _]. reflexivity.
Defined.

(** C9. The ports of a new proxy container are parsed from "80", "443"
    and "5000", or from the value of NITRO_HTTP_PORT, NITRO_HTTPS_PORT and
    NITRO_API_PORT where the variable is set to a non-empty value; the
    one container-create call [Create] makes exposes these three ports
    and binds each of them to host IP 127.0.0.1. *)
Theorem Create_port_bindings env (volumeName networkID : string) containers
    (httpPort httpsPort apiPort : string) :
  fst (ensure_image env) = None →
  docker_ContainerList env (proxy_filter env) = inl containers →
  fst (find_proxy containers) = "" →
  proxy_ports env = inl (httpPort, httpsPort, apiPort) →
  let req := create_request env volumeName networkID httpPort httpsPort apiPort in
  let calls := snd (Create env volumeName networkID) in
  httpPort = fst (nat_NewPort env "tcp" (port_setting env "NITRO_HTTP_PORT" "80"))
  ∧ httpsPort = fst (nat_NewPort env "tcp" (port_setting env "NITRO_HTTPS_PORT" "443"))
  ∧ apiPort = fst (nat_NewPort env "tcp" (port_setting env "NITRO_API_PORT" "5000"))
  ∧ (∀ key fallback : string,
       (environ env !! key = None → port_setting env key fallback = fallback)
       ∧ (∀ value, environ env !! key = Some value → value ≠ "" →
                   port_setting env key fallback = value))
  ∧ ContainerCreate req ∈ calls
  ∧ (∀ req', ContainerCreate req' ∈ calls → req' = req)
  ∧ ExposedPorts req = {[httpPort; httpsPort; apiPort]}
  ∧ (∀ port, port ∈ [httpPort; httpsPort; apiPort] →
       ∃ binding, PortBindings req !! port = Some [binding]
                  ∧ HostIP binding = "127.0.0.1").
Proof.
  intros Himg Hlist Hnone Hports req calls.
  split_and!.
  - by destruct (proxy_ports_inv env _ _ _ Hports) as (? & ? & ?).
  - by destruct (proxy_ports_inv env _ _ _ Hports) as (? & ? & ?).
  - by destruct (proxy_ports_inv env _ _ _ Hports) as (? & ? & ?).
  - intros key fallback. unfold port_setting, os_Getenv. split.
    + by intros ->.
    + intros value -> Hvalue. simpl. apply String.eqb_neq in Hvalue. by rewrite Hvalue.
  - unfold calls, Create.
    destruct (ensure_image env) as [[err|] tr]; simpl in Himg; [done|].
    rewrite Hlist. destruct (find_proxy containers) as [containerID proxyRunning].
    simpl in Hnone. subst containerID. simpl. rewrite Hports. fold req.
    destruct (docker_ContainerCreate env req); [|calls_solver].
    destruct proxyRunning; simpl; [calls_solver|].
    destruct (docker_ContainerStart _ _); calls_solver.
  - intros req'. unfold calls, Create.
    pose proof (ensure_image_calls env) as Himgcalls.
    rewrite Forall_forall in Himgcalls.
    destruct (ensure_image env) as [[err|] tr]; simpl in Himg, Himgcalls; [done|].
    rewrite Hlist. destruct (find_proxy containers) as [containerID proxyRunning].
    simpl in Hnone. subst containerID. simpl. rewrite Hports. fold req.
    assert (ContainerCreate req' ∈ tr → req' = req) as Htr.
    { by intros ?%Himgcalls. }
    destruct (docker_ContainerCreate env req); [|calls_solver].
    destruct proxyRunning; simpl; [calls_solver|].
    destruct (docker_ContainerStart _ _); calls_solver.
  - simpl. set_solver.
  - intros port Hport. simpl.
    destruct (decide (port = apiPort)) as [->|Hapi].
    { eexists. by rewrite lookup_insert_eq. }
    rewrite lookup_insert_ne by done.
    destruct (decide (port = httpsPort)) as [->|Hhttps].
    { eexists. by rewrite lookup_insert_eq. }
    rewrite lookup_insert_ne by done.
    assert (port = httpPort) as -> by calls_solver.
    eexists. by rewrite lookup_insert_eq.
Qed.

Lemma Create_port_bindings_witness :
  ContainerCreate
    (create_request (Examples.docker_world {[ "NITRO_HTTP_PORT" := "8080" ]} [])
       "nitro" "net1" "8080/tcp" "443/tcp" "5000/tcp")
  ∈ snd (Create (Examples.docker_world {[ "NITRO_HTTP_PORT" := "8080" ]} [])
           "nitro" "net1").
Proof.
  apply (Create_port_bindings
           (Examples.docker_world {[ "NITRO_HTTP_PORT" := "8080" ]} [])
           "nitro" "net1" [] "8080/tcp" "443/tcp" "5000/tcp"); reflexivity.
Defined.

End ProxyLifecycle.

(** * Further properties *)

Import shapes.

(** ** Database provisioning, continued *)

Section DatabaseProvisioningMore.

Implicit Types (env : DbEnv) (st : ImportState) (tr : list Event)
  (fs : gmap string (list Byte.byte)).







(** Every command [RemoveDatabase] runs is the DROP DATABASE IF EXISTS
    command for the request's engine (the mysql form for "mysql", the psql
    form with the port for every other engine), run with the tool the
    finder returned and only after a refused dial; it runs at most one
    command, and it reports success only if it ran one. *)
Theorem RemoveDatabase_single_drop env (req : DatabaseInfo) :
  let drop :=
    if String.eqb (GetEngine req) "mysql" then
      ["--user=nitro"; "--host=" +:+ GetHostname req; "-pnitro";
       "-e DROP DATABASE IF EXISTS " +:+ GetDatabase req +:+ ";"]
    else
      ["--host=" +:+ GetHostname req; "--port=" +:+ GetPort req; "--username=nitro";
       "-c DROP DATABASE IF EXISTS " +:+ GetDatabase req +:+ ";"] in
  let calls := snd (RemoveDatabase env req) in
  (process_invocations calls ≤ 1)%nat
  ∧ (∀ (tool : string) (args : list string),
       EvCommand tool args ∈ calls →
       args = drop
       ∧ DefaultImportToolFinder env (GetEngine req) (GetVersion req) = inl tool
       ∧ portavail_Check env (GetHostname req) (GetPort req) ≠ None)
  ∧ (∀ message : string,
       fst (RemoveDatabase env req) = inl message →
       process_invocations calls = 1%nat
       ∧ message = "Removed the database " +:+ fmt_q env (GetDatabase req)
                   +:+ " from " +:+ fmt_q env (GetHostname req) +:+ " successfully").
Proof.
  intros drop calls. unfold calls, RemoveDatabase. fold drop.
  destruct (portavail_Check _ _ _) eqn:Hdial; simpl.
  2:{ split_and!; [compute; lia| |done].
      intros tool args Hin. set_unfold in Hin. by destruct_or!. }
  destruct (DefaultImportToolFinder _ _ _) as [tool|] eqn:Htool; simpl.
  2:{ split_and!; [compute; lia| |done].
      intros tool args Hin. set_unfold in Hin. by destruct_or!. }
  unfold exec.
  set (tr := [EvDial (GetHostname req) (GetPort req);
              EvFindTool (GetEngine req) (GetVersion req); EvCommand tool drop]).
  assert (process_invocations tr = 1%nat) as Hone by done.
  assert (∀ tool' args, EvCommand tool' args ∈ tr →
                        args = drop ∧ (inl tool : string + error) = inl tool'
                        ∧ Some e ≠ (None : option error)) as Hcmd.
  { intros tool' args Hin. set_unfold in Hin. destruct_or!; simplify_eq; done. }
  destruct (command_run _ _ _ _); simpl; fold tr; rewrite ?Hone;
    (split_and!; [lia| exact Hcmd | by intros ? [= <-]]).
Qed.

Lemma RemoveDatabase_single_drop_witness :
  process_invocations (snd (RemoveDatabase (Examples.db_world false ExitOK [])
                              Examples.shop)) = 1%nat.
Proof.
  destruct (RemoveDatabase_single_drop (Examples.db_world false ExitOK []) Examples.shop)
    as (_ & _ & Hok).
  eapply Hok. reflexivity.
Defined.

(** Every command [AddDatabase] runs is the CREATE DATABASE command for
    the request's engine, run with the tool the finder returned and only
    after a refused dial. It runs at most two commands, at most one for an
    engine other than "mysql", and stops at the first command that fails;
    it reports success only after two commands for "mysql" and one for any
    other engine. *)
Theorem AddDatabase_commands env (req : DatabaseInfo) :
  let create :=
    if String.eqb (GetEngine req) "mysql" then
      ["--user=nitro"; "--host=" +:+ GetHostname req; "-pnitro";
       "-e CREATE DATABASE IF NOT EXISTS " +:+ GetDatabase req +:+ ";"]
    else
      ["--host=" +:+ GetHostname req; "--port=" +:+ GetPort req; "--username=nitro";
       "-c CREATE DATABASE " +:+ GetDatabase req +:+ ";"] in
  let calls := snd (AddDatabase env req) in
  let before := [EvDial (GetHostname req) (GetPort req);
                 EvFindTool (GetEngine req) (GetVersion req)] in
  (process_invocations calls ≤ 2)%nat
  ∧ (GetEngine req ≠ "mysql" → (process_invocations calls ≤ 1)%nat)
  ∧ (∀ (tool : string) (args : list string),
       EvCommand tool args ∈ calls →
       args = create
       ∧ DefaultImportToolFinder env (GetEngine req) (GetVersion req) = inl tool
       ∧ portavail_Check env (GetHostname req) (GetPort req) ≠ None)
  ∧ (∀ message : string,
       fst (AddDatabase env req) = inl message →
       process_invocations calls
       = (if String.eqb (GetEngine req) "mysql" then 2 else 1)%nat
       ∧ message = "Database " +:+ fmt_q env (GetDatabase req) +:+ " added to "
                   +:+ fmt_q env (GetHostname req) +:+ " successfully")
  ∧ (∀ (tool : string) (err : error),
       portavail_Check env (GetHostname req) (GetPort req) ≠ None →
       DefaultImportToolFinder env (GetEngine req) (GetVersion req) = inl tool →
       fst (exec env before tool create) = Some err →
       AddDatabase env req
       = (inr (statusInternal ("error creating database: " +:+ Error err)),
          before ++ [EvCommand tool create])).
Proof.
  intros create calls before. unfold calls, AddDatabase.
  destruct (portavail_Check _ _ _) eqn:Hdial; simpl.
  2:{ split_and!; [compute; lia|compute; lia| |done|done].
      intros tool args Hin. set_unfold in Hin. by destruct_or!. }
  destruct (DefaultImportToolFinder _ _ _) as [tool|] eqn:Htool; simpl.
  2:{ split_and!; [compute; lia|compute; lia| |done|done].
      intros tool args Hin. set_unfold in Hin. by destruct_or!. }
  fold before.
  assert (∀ extra, (∀ e', e' ∈ extra → e' = EvCommand tool create) →
            ∀ tool' args, EvCommand tool' args ∈ before ++ extra →
              args = create ∧ (inl tool : string + error) = inl tool'
              ∧ Some e ≠ (None : option error)) as Hcmd.
  { intros extra Hextra tool' args [Hin|Hin]%elem_of_app.
    - set_unfold in Hin. by destruct_or!.
    - apply Hextra in Hin. by simplify_eq. }
  assert (∀ tr, snd (exec env tr tool create) = tr ++ [EvCommand tool create]) as Hexec.
  { intros tr. unfold exec. by destruct (command_run _ _ _ _). }
  destruct (String.eqb_spec (GetEngine req) "mysql") as [Hmysql|Hother].
  - (* mysql: the create command, then the same command again *)
    fold create.
    destruct (exec env before tool create) as [[err|] tr1] eqn:Hfirst;
      pose proof (Hexec before) as Htr1; rewrite Hfirst in Htr1; cbn [snd] in Htr1; subst tr1.
    + cbn [fst snd]. split_and!; [compute; lia|done| |done|].
      * apply (Hcmd [EvCommand tool create]). by intros ? ->%list_elem_of_singleton.
      * intros tool' err' _ [= <-] Hx; rewrite Hfirst in Hx; by simplify_eq/=.
    + destruct (exec env (before ++ [EvCommand tool create]) tool create)
        as [[err|] tr2] eqn:Hsecond;
        pose proof (f_equal snd Hsecond) as Htr2;
        rewrite Hexec in Htr2; cbn [snd] in Htr2; subst tr2; cbn [fst snd].
      * split_and!; [compute; lia|done| |done|intros tool' err' _ [= <-] Hx; rewrite Hfirst in Hx; by simplify_eq/=].
        rewrite <- app_assoc. apply (Hcmd [EvCommand tool create; EvCommand tool create]).
        intros e' He'. set_unfold in He'. by destruct_or!.
      * split_and!; [compute; lia|done| |by intros ? [= <-]|intros tool' err' _ [= <-] Hx; rewrite Hfirst in Hx; by simplify_eq/=].
        rewrite <- app_assoc. apply (Hcmd [EvCommand tool create; EvCommand tool create]).
        intros e' He'. set_unfold in He'. by destruct_or!.
  - (* any other engine: the create command alone *)
    fold create.
    destruct (exec env before tool create) as [[err|] tr1] eqn:Hfirst;
      pose proof (Hexec before) as Htr1; rewrite Hfirst in Htr1; cbn [snd] in Htr1; subst tr1.
    + cbn [fst snd]. split_and!; [compute; lia|intros _; compute; lia| |done|].
      * apply (Hcmd [EvCommand tool create]). by intros ? ->%list_elem_of_singleton.
      * intros tool' err' _ [= <-] Hx; rewrite Hfirst in Hx; by simplify_eq/=.
    + cbn [fst snd]. split_and!; [compute; lia|intros _; compute; lia| |by intros ? [= <-]|intros tool' err' _ [= <-] Hx; rewrite Hfirst in Hx; by simplify_eq/=].
      apply (Hcmd [EvCommand tool create]). by intros ? ->%list_elem_of_singleton.
Qed.

Lemma AddDatabase_commands_witness :
  AddDatabase (Examples.db_world false (WaitExitStatus 1) []) Examples.shop
  = (inr (statusInternal "error creating database: Exit Status: 1"),
     [ EvDial "mysql-8.0-3306.nitro" "3306"; EvFindTool "mysql" "8.0";
       EvCommand "mysql" ["--user=nitro"; "--host=mysql-8.0-3306.nitro"; "-pnitro";
                          "-e CREATE DATABASE IF NOT EXISTS shop;"] ]).
Proof.
  destruct (AddDatabase_commands (Examples.db_world false (WaitExitStatus 1) [])
              Examples.shop) as (_ & _ & _ & _ & Hfail).
  apply (Hfail "mysql" (errorString "Exit Status: 1")); [done|reflexivity|reflexivity].
Defined.

End DatabaseProvisioningMore.

(** ** Route reconciler, continued *)

Section HostLists.

Variable sep : ascii.

(** Joining the fields of a split gives the string back. *)
Lemma strings_Join_Split (s : string) : strings_Join (strings_Split s sep) sep = s.
Proof.
  induction s as [|c s IH]; [done|]. simpl.
  destruct (Ascii.eqb_spec c sep) as [->|Hc].
  - pose proof (strings_Split_nonempty sep s) as Hne.
    destruct (strings_Split s sep) as [|field fields] eqn:Hs; [done|].
    change (strings_Join ("" :: field :: fields) sep)
      with ("" +:+ String sep (strings_Join (field :: fields) sep)).
    by rewrite IH.
  - pose proof (strings_Split_nonempty sep s) as Hne.
    destruct (strings_Split s sep) as [|field fields] eqn:Hs; [done|].
    destruct fields as [|field' fields]; simpl in *; by rewrite <- IH.
Qed.

(** A string with [n] separators splits into [n + 1] fields. *)
Lemma strings_Split_length (s : string) :
  length (strings_Split s sep) = S (count_byte sep s).
Proof.
  induction s as [|c s IH]; [done|]. simpl.
  destruct (Ascii.eqb c sep); simpl; [by rewrite IH|].
  pose proof (strings_Split_nonempty sep s) as Hne.
  destruct (strings_Split s sep); [done|]. simpl in *. lia.
Qed.

(** No field of a split contains the separator. *)
Lemma strings_Split_fields (s : string) :
  Forall (fun field => contains_byte sep field = false) (strings_Split s sep).
Proof.
  induction s as [|c s IH]; [by repeat constructor|]. simpl.
  destruct (Ascii.eqb c sep) eqn:Hc; [by constructor|].
  destruct (strings_Split s sep) as [|field fields]; [by repeat constructor; simpl; rewrite Hc|].
  apply Forall_cons in IH as [Hfield Hfields].
  constructor; [|done]. simpl. by rewrite Hc, Hfield.
Qed.

End HostLists.

Section RouteReconcilerMore.

(** The hosts a site's route matches: the hostname, then the aliases,
    which joined by commas are the [Aliases] field as it was sent (no
    alias is trimmed, dropped or reordered), none of them containing a
    comma; a site with aliases has one alias more than [Aliases] has
    commas. *)
Theorem site_route_hosts (k : string) (site : Site) :
  Match_ (site_route (k, site)) = [ {| Host := Hostname site :: site_aliases site |} ]
  ∧ strings_Join (site_aliases site) "," = Aliases site
  ∧ Forall (fun alias => contains_byte "," alias = false) (site_aliases site)
  ∧ length (site_aliases site)
    = (if String.eqb (Aliases site) "" then 0
       else S (count_byte "," (Aliases site)))%nat.
Proof.
  split_and!.
  - simpl. by rewrite site_hosts_aliases.
  - unfold site_aliases. destruct (String.eqb_spec (Aliases site) "") as [->|_]; [done|].
    apply strings_Join_Split.
  - unfold site_aliases. destruct (String.eqb (Aliases site) ""); [constructor|].
    apply strings_Split_fields.
  - unfold site_aliases. destruct (String.eqb (Aliases site) ""); [done|].
    apply strings_Split_length.
Qed.

End RouteReconcilerMore.

(** ** Proxy container lifecycle, continued *)

Section ProxyLifecycleMore.

Implicit Types (env : DockerEnv) (c : Container) (containers : list Container).

Lemma last_proxy_cons c containers :
  last_proxy (c :: containers)
  = match last_proxy containers with
    | Some c' => Some c'
    | None => if existsb is_proxy_name (Names c) then Some c else None
    end.
Proof.
  unfold last_proxy. rewrite filter_cons.
  destruct (decide (existsb is_proxy_name (Names c) = true)) as [Hc|Hc].
  - rewrite Hc, last_cons. by destruct (last _).
  - apply not_true_is_false in Hc. rewrite Hc. by destruct (last _).
Qed.

(** The loops of [Create] over the listing, started from any state. *)
Lemma find_proxy_from containers (acc : string * bool) :
  fold_left
    (fun acc c =>
       fold_left
         (fun '(containerID, proxyRunning) n =>
            if is_proxy_name n then
              (ID c, if String.eqb (State c) "running" then true else proxyRunning)
            else (containerID, proxyRunning))
         (Names c) acc)
    containers acc
  = (from_option ID (fst acc) (last_proxy containers),
     snd acc || existsb running_proxy containers).
Proof.
  revert acc. induction containers as [|c containers IH]; intros [containerID running].
  { simpl. by rewrite orb_false_r. }
  cbn [fold_left]. rewrite find_proxy_names, IH, last_proxy_cons.
  unfold running_proxy at 2. cbn [existsb].
  destruct (existsb is_proxy_name (Names c)); simpl.
  - destruct (last_proxy containers); simpl;
      destruct (String.eqb (State c) "running"); simpl; try done;
      by rewrite ?orb_true_r.
  - by destruct (last_proxy containers).
Qed.

(** [Create] takes the ID of the last listed container that carries the
    proxy's name, and counts the proxy as running when any listed
    container carrying the name is running; with no such container the ID
    is empty and the proxy is not running. *)
Theorem find_proxy_last_and_any containers :
  find_proxy containers
  = (from_option ID "" (last_proxy containers), existsb running_proxy containers)
  ∧ (Forall (fun c => existsb is_proxy_name (Names c) = false) containers →
     find_proxy containers = ("", false)).
Proof.
  assert (find_proxy containers
          = (from_option ID "" (last_proxy containers),
             existsb running_proxy containers)) as Hfind.
  { unfold find_proxy. by rewrite find_proxy_from. }
  split; [done|]. intros Hnone. rewrite Hfind. clear Hfind.
  assert (filter (fun c => existsb is_proxy_name (Names c) = true) containers = []
          ∧ existsb running_proxy containers = false) as [Hfilter Hrunning].
  { induction Hnone as [|c l Hc _ [IHf IHr]]; [done|]. split.
    - rewrite filter_cons_False; [done|]. by rewrite Hc.
    - simpl. unfold running_proxy at 1. by rewrite Hc. }
  unfold last_proxy. by rewrite Hfilter, Hrunning.
Qed.

Lemma find_proxy_last_and_any_witness :
  find_proxy [Examples.a_site_container] = ("", false).
Proof.
  apply find_proxy_last_and_any. by repeat constructor.
Defined.

(** What the image check does. *)
Lemma ensure_image_cases env :
  let imageFilter := [("label", labels_Nitro env +:+ "=true");
                      ("reference", ProxyImage env)] in
  ensure_image env =
  if String.eqb (os_Getenv env "NITRO_DEVELOPMENT") "true" then (None, [])
  else match docker_ImageList env imageFilter with
       | inr err => (Some (wrap "unable to get a list of images, " err),
                     [ImageList imageFilter])
       | inl O =>
           (match docker_ImagePull env (ProxyImage env) with
            | Some err => Some (wrap "unable to pull the nitro-proxy from docker hub, " err)
            | None =>
                match pull_ReadFrom env with
                | Some err =>
                    Some (wrap "unable to read the output from pulling the image, " err)
                | None => None
                end
            end,
            [ImageList imageFilter; ImagePull (ProxyImage env)])
       | inl (S _) => (None, [ImageList imageFilter])
       end.
Proof.
  intros imageFilter. unfold ensure_image. fold imageFilter.
  destruct (String.eqb _ "true"); [done|]. simpl.
  destruct (docker_ImageList _ _) as [[|images]|]; simpl; [|done|done].
  destruct (docker_ImagePull _ _); [done|]. by destruct (pull_ReadFrom _).
Qed.

(** The calls of one [Create]: the image calls first; then, only if the
    image check passed, at most the listing, one create and one start, in
    this order, the start after a create being of the container the engine
    just returned. With NITRO_DEVELOPMENT set to "true" there is no image
    call, and otherwise the image is pulled exactly when the engine lists
    no image. *)
Theorem Create_call_shape env (volumeName networkID : string) :
  (∃ tail, snd (Create env volumeName networkID) = snd (ensure_image env) ++ tail
           ∧ create_tail env tail
           ∧ (fst (ensure_image env) ≠ None →
              tail = [] ∧ fst (Create env volumeName networkID) = fst (ensure_image env)))
  ∧ (os_Getenv env "NITRO_DEVELOPMENT" = "true" → snd (ensure_image env) = [])
  ∧ (os_Getenv env "NITRO_DEVELOPMENT" ≠ "true" →
     head (snd (ensure_image env))
     = Some (ImageList [("label", labels_Nitro env +:+ "=true");
                        ("reference", ProxyImage env)])
     ∧ ((ImagePull (ProxyImage env) ∈ snd (ensure_image env))
        ↔ (docker_ImageList env [("label", labels_Nitro env +:+ "=true");
                                 ("reference", ProxyImage env)] = inl 0%nat))).
Proof.
  split_and!.
  - unfold Create.
    destruct (ensure_image env) as [[err|] tr]; simpl.
    { exists []. rewrite app_nil_r. split_and!; [done|constructor|done]. }
    destruct (docker_ContainerList _ _) as [containers|].
    2:{ eexists. split_and!; [done|constructor|done]. }
    destruct (find_proxy containers) as [containerID proxyRunning].
    destruct (String.eqb containerID "").
    + destruct (proxy_ports env) as [[[httpPort httpsPort] apiPort]|].
      2:{ eexists. split_and!; [done|constructor|done]. }
      destruct (docker_ContainerCreate _ _) as [respID|] eqn:Hcreate.
      2:{ simpl. rewrite <- app_assoc. eexists. split_and!; [done|constructor|done]. }
      destruct proxyRunning; simpl.
      { rewrite <- app_assoc. eexists. split_and!; [done|constructor|done]. }
      destruct (docker_ContainerStart _ _); simpl; rewrite <- !app_assoc;
        (eexists; split_and!; [done|by constructor|done]).
    + destruct proxyRunning; simpl.
      { eexists. split_and!; [done|constructor|done]. }
      destruct (docker_ContainerStart _ _); simpl; rewrite <- !app_assoc;
        (eexists; split_and!; [done|by constructor|done]).
  - intros Hdev. rewrite ensure_image_cases, Hdev. done.
  - intros Hdev. rewrite ensure_image_cases.
    apply String.eqb_neq in Hdev. rewrite Hdev.
    destruct (docker_ImageList _ _) as [[|images]|]; simpl; (split; [done|]).
    + split; [done|]. intros _. set_unfold. tauto.
    + split; [|done]. intros Hin. set_unfold in Hin. by destruct_or!.
    + split; [|done]. intros Hin. set_unfold in Hin. by destruct_or!.
Qed.

Lemma Create_call_shape_witness :
  snd (ensure_image (Examples.docker_world {[ "NITRO_DEVELOPMENT" := "true" ]} [])) = [].
Proof.
  apply (Create_call_shape (Examples.docker_world {[ "NITRO_DEVELOPMENT" := "true" ]} [])
           "nitro" "net1").
  reflexivity.
Defined.

(** When no listed container carries the proxy's name, [Create] creates
    one container from the request built from the three ports and then
    starts the container the engine returned, whatever its ID; a failed
    create is returned without a start, a failed start is returned as the
    error. *)
Theorem Create_fresh_proxy env (volumeName networkID : string) containers
    (httpPort httpsPort apiPort : string) :
  fst (ensure_image env) = None →
  docker_ContainerList env (proxy_filter env) = inl containers →
  Forall (fun c => existsb is_proxy_name (Names c) = false) containers →
  proxy_ports env = inl (httpPort, httpsPort, apiPort) →
  let req := create_request env volumeName networkID httpPort httpsPort apiPort in
  let before := snd (ensure_image env) ++ [ContainerList (proxy_filter env) true] in
  Create env volumeName networkID
  = match docker_ContainerCreate env req with
    | inr err =>
        (Some (wrap ("unable to create the container from image "
                     +:+ ProxyImage env +:+ LF) err),
         before ++ [ContainerCreate req])
    | inl respID =>
        (match docker_ContainerStart env respID with
         | Some err => Some (wrap "unable to start the nitro container, " err)
         | None => None
         end,
         before ++ [ContainerCreate req; ContainerStart respID])
    end.
Proof.
  intros Himg Hlist Hnone Hports req before. unfold Create.
  destruct (ensure_image env) as [[err|] tr]; simpl in Himg; [done|].
  rewrite Hlist, (proj2 (find_proxy_last_and_any containers) Hnone).
  simpl. rewrite Hports. fold req. unfold before. simpl.
  destruct (docker_ContainerCreate env req) as [respID|]; [|done].
  destruct (docker_ContainerStart env respID); by rewrite <- !app_assoc.
Qed.

Lemma Create_fresh_proxy_witness :
  Create (Examples.docker_world ∅ [Examples.a_site_container]) "nitro" "net1"
  = (None,
     [ ImageList [("label", "com.craftcms.nitro=true");
                  ("reference", "craftcms/nitro-proxy:2.0.0-beta.2")];
       ContainerList [("label", "com.craftcms.nitro=true");
                      ("label", "com.craftcms.nitro.proxy=true")] true;
       ContainerCreate
         (create_request (Examples.docker_world ∅ [Examples.a_site_container])
            "nitro" "net1" "80/tcp" "443/tcp" "5000/tcp");
       ContainerStart "testingid" ]).
Proof.
  rewrite (Create_fresh_proxy (Examples.docker_world ∅ [Examples.a_site_container])
             "nitro" "net1" [Examples.a_site_container] "80/tcp" "443/tcp" "5000/tcp");
    [reflexivity | reflexivity | reflexivity | by repeat constructor | reflexivity].
Defined.

(** [proxy_ports] fails exactly when [nat.NewPort] rejects the HTTP
    setting, the default "443" with NITRO_HTTPS_PORT empty, or the API
    setting. A value of NITRO_HTTPS_PORT that [nat.NewPort] rejects is not
    reported: the ports are computed and the HTTPS port is whatever
    [nat.NewPort] returned with its error. *)
Theorem proxy_ports_failures env :
  let http := nat_NewPort env "tcp" (port_setting env "NITRO_HTTP_PORT" "80") in
  let api := nat_NewPort env "tcp" (port_setting env "NITRO_API_PORT" "5000") in
  ((∃ err, proxy_ports env = inr err)
   ↔ (snd http ≠ None
      ∨ (os_Getenv env "NITRO_HTTPS_PORT" = "" ∧ snd (nat_NewPort env "tcp" "443") ≠ None)
      ∨ snd api ≠ None))
  ∧ (os_Getenv env "NITRO_HTTPS_PORT" ≠ "" →
     snd http = None → snd api = None →
     proxy_ports env
     = inl (fst http,
            fst (nat_NewPort env "tcp" (os_Getenv env "NITRO_HTTPS_PORT")),
            fst api)).
Proof.
  intros http api. unfold http, api, proxy_ports, port_setting.
  destruct (String.eqb_spec (os_Getenv env "NITRO_HTTPS_PORT") "") as [Hs|Hs];
    destruct (String.eqb (os_Getenv env "NITRO_HTTP_PORT") "");
    destruct (String.eqb (os_Getenv env "NITRO_API_PORT") "");
    repeat match goal with
           | |- context [nat_NewPort env ?proto ?port] =>
               let p := fresh "p" in let e := fresh "e" in
               destruct (nat_NewPort env proto port) as [p [e|]] eqn:?
           end; simpl; naive_solver.
Qed.

Lemma proxy_ports_failures_witness :
  proxy_ports
    {| environ := {[ "NITRO_HTTPS_PORT" := "https" ]};
       docker_ImageList := fun _ => inl 1%nat;
       docker_ImagePull := fun _ => None;
       pull_ReadFrom := None;
       docker_ContainerList := fun _ => inl [];
       docker_ContainerCreate := fun _ => inl "testingid";
       docker_ContainerStart := fun _ => None;
       nat_NewPort := fun proto port =>
         if String.eqb port "https" then ("", Some (errorString "invalid syntax"))
         else (port +:+ "/" +:+ proto, None);
       labels_Nitro := "com.craftcms.nitro";
       labels_Type := "com.craftcms.nitro.type";
       labels_Proxy := "com.craftcms.nitro.proxy";
       labels_ProxyVersion := "com.craftcms.nitro.proxy-version";
       version_Version := "2.0.0-beta.2" |}
  = inl ("80/tcp", "", "5000/tcp").
Proof.
  match goal with |- proxy_ports ?env = _ =>
    rewrite (proj2 (proxy_ports_failures env)); [reflexivity|done|reflexivity|reflexivity]
  end.
Defined.

(** Overriding a port changes the container's port, not the host's: when
    the three ports differ, the HTTP, HTTPS and API ports are bound to
    host ports 80, 443 and 5000 on 127.0.0.1, whatever the environment
    variables say, and nothing else is bound. *)
Theorem create_request_host_ports env (volumeName networkID : string)
    (httpPort httpsPort apiPort : string) :
  httpPort ≠ httpsPort → httpPort ≠ apiPort → httpsPort ≠ apiPort →
  let req := create_request env volumeName networkID httpPort httpsPort apiPort in
  PortBindings req !! httpPort = Some [ {| HostIP := "127.0.0.1"; HostPort := "80" |} ]
  ∧ PortBindings req !! httpsPort = Some [ {| HostIP := "127.0.0.1"; HostPort := "443" |} ]
  ∧ PortBindings req !! apiPort = Some [ {| HostIP := "127.0.0.1"; HostPort := "5000" |} ]
  ∧ (∀ port : string, port ∉ [httpPort; httpsPort; apiPort] →
                      PortBindings req !! port = None)
  ∧ (∀ port : string, port ∈ ExposedPorts req ↔ port ∈ [httpPort; httpsPort; apiPort]).
Proof.
  intros H1 H2 H3 req. simpl. split_and!.
  - rewrite lookup_insert_ne by congruence. rewrite lookup_insert_ne by congruence.
    apply lookup_insert_eq.
  - rewrite lookup_insert_ne by congruence. apply lookup_insert_eq.
  - apply lookup_insert_eq.
  - intros port Hport. set_unfold in Hport.
    rewrite lookup_insert_ne by naive_solver. rewrite lookup_insert_ne by naive_solver.
    rewrite lookup_insert_ne by naive_solver. done.
  - intros port. set_unfold. tauto.
Qed.

Lemma create_request_host_ports_witness :
  PortBindings
    (create_request (Examples.docker_world {[ "NITRO_HTTP_PORT" := "8080" ]} [])
       "nitro" "net1" "8080/tcp" "443/tcp" "5000/tcp") !! "8080/tcp"
  = Some [ {| HostIP := "127.0.0.1"; HostPort := "80" |} ].
Proof.
  apply (create_request_host_ports
           (Examples.docker_world {[ "NITRO_HTTP_PORT" := "8080" ]} [])
           "nitro" "net1" "8080/tcp" "443/tcp" "5000/tcp"); done.
Defined.

Lemma first_proxy_cons c containers :
  first_proxy (c :: containers)
  = if existsb is_proxy_name (Names c) then Some c else first_proxy containers.
Proof.
  unfold first_proxy. rewrite filter_cons.
  destruct (decide (existsb is_proxy_name (Names c) = true)) as [Hc|Hc].
  - by rewrite Hc.
  - apply not_true_is_false in Hc. by rewrite Hc.
Qed.

Lemma first_proxy_None containers :
  first_proxy containers = None
  ↔ Forall (fun c => existsb is_proxy_name (Names c) = false) containers.
Proof.
  induction containers as [|c containers IH]; [by split; [constructor|]|].
  rewrite first_proxy_cons, Forall_cons, <- IH.
  destruct (existsb is_proxy_name (Names c)); naive_solver.
Qed.

Lemma find_and_start_first env containers (tr : list DockerCall) :
  find_and_start env containers tr
  = match first_proxy containers with
    | None => (inr ErrNoProxyContainer, tr)
    | Some c =>
        if String.eqb (State c) "running" then (inl c, tr)
        else (match docker_ContainerStart env (ID c) with
              | Some err => inr (wrap "unable to start the proxy container: " err)
              | None => inl c
              end,
              tr ++ [ContainerStart (ID c)])
    end.
Proof.
  induction containers as [|c containers IH]; [done|].
  simpl. rewrite first_proxy_cons.
  destruct (existsb is_proxy_name (Names c)); [|done].
  destruct (String.eqb (State c) "running"); simpl; [done|].
  by destruct (docker_ContainerStart env (ID c)).
Qed.

(** [FindAndStart] takes the first listed container that carries the
    proxy's name: it returns it untouched when it is running, starts it
    otherwise and returns it unless the start fails, and makes no other
    call after the listing; without such a container it returns
    [ErrNoProxyContainer] after the listing alone. *)
Theorem FindAndStart_first_proxy env containers :
  docker_ContainerList env [("label", labels_Type env +:+ "=proxy")] = inl containers →
  let listing := ContainerList [("label", labels_Type env +:+ "=proxy")] true in
  FindAndStart env
  = match first_proxy containers with
    | None => (inr ErrNoProxyContainer, [listing])
    | Some c =>
        if String.eqb (State c) "running" then (inl c, [listing])
        else (match docker_ContainerStart env (ID c) with
              | Some err => inr (wrap "unable to start the proxy container: " err)
              | None => inl c
              end,
              [listing; ContainerStart (ID c)])
    end.
Proof.
  intros Hlist listing. unfold FindAndStart. rewrite Hlist.
  by rewrite find_and_start_first.
Qed.

Lemma FindAndStart_first_proxy_witness :
  FindAndStart (Examples.docker_world ∅
                  [Examples.a_site_container; Examples.proxy_in "exited"])
  = (inl (Examples.proxy_in "exited"),
     [ContainerList [("label", "com.craftcms.nitro.type=proxy")] true;
      ContainerStart "4f5ac1"]).
Proof.
  rewrite (FindAndStart_first_proxy
             (Examples.docker_world ∅
                [Examples.a_site_container; Examples.proxy_in "exited"])
             [Examples.a_site_container; Examples.proxy_in "exited"]);
    reflexivity.
Defined.

(** [FindAndStart] returns [ErrNoProxyContainer] exactly when the listing
    succeeds and no listed container carries the proxy's name: a failed
    listing and a failed start are different errors. *)
Theorem FindAndStart_not_found env :
  fst (FindAndStart env) = inr ErrNoProxyContainer
  ↔ ∃ containers,
      docker_ContainerList env [("label", labels_Type env +:+ "=proxy")] = inl containers
      ∧ Forall (fun c => existsb is_proxy_name (Names c) = false) containers.
Proof.
  split.
  - destruct (docker_ContainerList env [("label", labels_Type env +:+ "=proxy")])
      as [containers|err] eqn:Hlist.
    + rewrite (FindAndStart_first_proxy env containers Hlist). intros Hret.
      exists containers. split; [done|]. apply first_proxy_None.
      destruct (first_proxy containers) as [c|]; [|done]. exfalso.
      destruct (String.eqb (State c) "running"); [done|].
      simpl in Hret. destruct (docker_ContainerStart env (ID c)); [|done].
      unfold wrap, ErrNoProxyContainer in Hret. simpl in Hret. discriminate.
    + unfold FindAndStart. rewrite Hlist. simpl.
      unfold wrap, ErrNoProxyContainer. simpl. discriminate.
  - intros (containers & Hlist & Hnone).
    rewrite (FindAndStart_first_proxy env containers Hlist).
    apply first_proxy_None in Hnone. by rewrite Hnone.
Qed.

End ProxyLifecycleMore.

(** ** Composer in a temporary container *)

Section ComposerRun.

Import engine client.

(** [Composer] pulls the image first; the one container it creates runs
    "composer install" for the action "install" and "composer update" for
    every other action, with [dir] bind-mounted at /app; it only starts a
    container the engine returned for that create and attached to; it
    never waits for and never removes the container; and it returns no
    error only after pull, create, attach, start and copy in this order. *)
Theorem Composer_steps (env : ComposerEnv) (dir version action : string) :
  let image := "docker.io/library/composer:" +:+ version in
  let cmd := ["composer"; if String.eqb action "install" then "install" else "update";
              "--ignore-platform-reqs"; "--prefer-dist"] in
  let mounts := [ {| proxycontainer.Type_ := "bind"; proxycontainer.Source := dir;
                     proxycontainer.Target := "/app" |} ] in
  let calls := snd (Composer env dir version action) in
  head calls = Some (ImagePull image)
  ∧ (∀ image' cmd' mounts' name',
       ContainerCreate image' cmd' mounts' name' ∈ calls →
       image' = image ∧ cmd' = cmd ∧ mounts' = mounts ∧ name' = "")
  ∧ (∀ containerID,
       ContainerStart containerID ∈ calls →
       docker_ContainerCreate env image cmd mounts "" = inl containerID
       ∧ docker_ContainerAttach env containerID = None)
  ∧ (∀ containerID,
       (ContainerRemove containerID ∉ calls) ∧ (ContainerWait containerID ∉ calls))
  ∧ (fst (Composer env dir version action) = None →
     ∃ containerID,
       calls = [ImagePull image; ContainerCreate image cmd mounts "";
                ContainerAttach containerID; ContainerStart containerID;
                StdCopy containerID; CloseStream containerID]).
Proof.
  intros image cmd mounts calls. unfold calls, Composer.
  change ("docker.io/library/" +:+ "composer" +:+ ":" +:+ version) with image.
  replace (if String.eqb action "install"
           then ["composer"; "install"; "--ignore-platform-reqs"; "--prefer-dist"]
           else ["composer"; "update"; "--ignore-platform-reqs"; "--prefer-dist"])
    with cmd by (unfold cmd; by destruct (String.eqb action "install")).
  fold mounts.
  destruct (docker_ImagePull env image).
  { simpl. split_and!; try done; intros; set_unfold; naive_solver. }
  destruct (docker_ContainerCreate env image cmd mounts "") as [respID|] eqn:Hcreate.
  2:{ simpl. split_and!; try done; intros; set_unfold; naive_solver. }
  destruct (docker_ContainerAttach env respID) eqn:Hattach.
  { simpl. split_and!; try done; intros; set_unfold; naive_solver. }
  destruct (docker_ContainerStart env respID).
  { simpl. split_and!; try done; intros; set_unfold; naive_solver. }
  destruct (stdcopy_StdCopy env respID);
    simpl; split_and!; try done; intros; set_unfold; naive_solver.
Qed.

Lemma Composer_steps_witness :
  ∃ containerID,
    snd (Composer MoreExamples.composer_world "/home/oli/dev/site" "2" "dump-autoload")
    = [ ImagePull "docker.io/library/composer:2";
        ContainerCreate "docker.io/library/composer:2"
          ["composer"; "update"; "--ignore-platform-reqs"; "--prefer-dist"]
          [ {| proxycontainer.Type_ := "bind";
               proxycontainer.Source := "/home/oli/dev/site";
               proxycontainer.Target := "/app" |} ] "";
        ContainerAttach containerID; ContainerStart containerID; StdCopy containerID;
        CloseStream containerID ].
Proof.
  apply (Composer_steps MoreExamples.composer_world "/home/oli/dev/site" "2"
           "dump-autoload").
  reflexivity.
Defined.

End ComposerRun.

(** ** Stopping an environment *)

Section StopEnvironment.

Import engine stop.

Lemma stop_each_all (env : StopEnv) (containers : list Listed) (tr : list Call) :
  Forall (fun c => ListedNames c ≠ [] ∧ docker_ContainerStop env (ListedID c) = None)
    containers →
  stop_each env containers tr
  = (Returned None, tr ++ map (fun c => ContainerStop (ListedID c)) containers).
Proof.
  intros Hall. revert tr.
  induction Hall as [|c containers [Hname Hstop] _ IH]; intros tr; simpl.
  { by rewrite app_nil_r. }
  destruct (ListedNames c); [done|].
  by rewrite Hstop, IH, <- app_assoc.
Qed.

Lemma stop_each_until (env : StopEnv) (stopped : list Listed) (c : Listed)
    (rest : list Listed) (name : string) (names : list string) (err : error)
    (tr : list Call) :
  Forall (fun c => ListedNames c ≠ [] ∧ docker_ContainerStop env (ListedID c) = None)
    stopped →
  ListedNames c = name :: names →
  docker_ContainerStop env (ListedID c) = Some err →
  stop_each env (stopped ++ c :: rest) tr
  = (Returned (Some (errorString ("unable to stop container "
                                  +:+ strings_TrimLeft name "/" +:+ ": "
                                  +:+ Error err))),
     tr ++ map (fun c => ContainerStop (ListedID c)) (stopped ++ [c])).
Proof.
  intros Hall Hname Hstop. revert tr.
  induction Hall as [|c0 stopped [Hname0 Hstop0] _ IH]; intros tr; simpl.
  - by rewrite Hname, Hstop.
  - destruct (ListedNames c0); [done|]. rewrite Hstop0, IH.
    by rewrite <- app_assoc.
Qed.

(** The stop command stops the listed containers in listing order, each
    once, and ends at the first container that cannot be stopped, leaving
    the containers listed after it untouched; when every container stops
    it returns no error, and with nothing listed it returns
    [ErrNoContainers] without stopping anything. *)
Theorem stop_in_listing_order (env : StopEnv) (environment : string)
    (stopped rest : list Listed) :
  let filter := [("label", labels_Environment env +:+ "=" +:+ environment)] in
  docker_ContainerList env filter = inl (stopped ++ rest) →
  Forall (fun c => ListedNames c ≠ [] ∧ docker_ContainerStop env (ListedID c) = None)
    stopped →
  match rest with
  | [] =>
      RunE env environment
      = if Nat.eqb (length stopped) 0
        then (Returned (Some ErrNoContainers), [ContainerList filter false])
        else (Returned None,
              ContainerList filter false
              :: map (fun c => ContainerStop (ListedID c)) stopped)
  | c :: _ =>
      ∀ (name : string) (names : list string) (err : error),
        ListedNames c = name :: names →
        docker_ContainerStop env (ListedID c) = Some err →
        RunE env environment
        = (Returned (Some (errorString ("unable to stop container "
                                        +:+ strings_TrimLeft name "/" +:+ ": "
                                        +:+ Error err))),
           ContainerList filter false
           :: map (fun c => ContainerStop (ListedID c)) (stopped ++ [c]))
  end.
Proof.
  intros filter Hlist Hall. unfold RunE. fold filter. rewrite Hlist.
  destruct rest as [|c rest].
  - rewrite app_nil_r. destruct stopped as [|c0 stopped]; [done|].
    cbn [length Nat.eqb]. by rewrite stop_each_all.
  - intros name names err Hname Hstop.
    rewrite length_app. cbn [length].
    replace (length stopped + S (length rest) =? 0)%nat with false
      by (symmetry; apply Nat.eqb_neq; lia).
    by rewrite (stop_each_until env stopped c rest name names err).
Qed.

Lemma stop_in_listing_order_witness :
  RunE (MoreExamples.stop_world
          [MoreExamples.listed "a1" "/site.nitro"; MoreExamples.listed "b2" "/mysql.nitro";
           MoreExamples.listed "c3" "/redis.nitro"] "b2") "nitro-dev"
  = (Returned (Some (errorString "unable to stop container mysql.nitro: timeout")),
     [ContainerList [("label", "com.craftcms.nitro.environment=nitro-dev")] false;
      ContainerStop "a1"; ContainerStop "b2"]).
Proof.
  apply (stop_in_listing_order
           (MoreExamples.stop_world
              [MoreExamples.listed "a1" "/site.nitro";
               MoreExamples.listed "b2" "/mysql.nitro";
               MoreExamples.listed "c3" "/redis.nitro"] "b2") "nitro-dev"
           [MoreExamples.listed "a1" "/site.nitro"]
           [MoreExamples.listed "b2" "/mysql.nitro"; MoreExamples.listed "c3" "/redis.nitro"]
           eq_refl ltac:(by repeat constructor) "/mysql.nitro" [] (errorString "timeout")
           eq_refl eq_refl).
Defined.

End StopEnvironment.

(** ** Creating a file unless it exists *)

Section CreateFile.

Import engine helpers.

(** [CreateFileIfNotExist] never changes or removes a regular file and
    touches no path but [filename]; on a regular file it fails with "file
    already exists"; it returns no error only if nothing was at [filename]
    before, and then an empty regular file is there; on a directory it
    returns the error of [os.Create]. *)
Theorem CreateFileIfNotExist_keeps_files (env : FsEnv) (fs : gmap string node)
    (filename : string) :
  let result := CreateFileIfNotExist env fs filename in
  (∀ (path : string) (content : list Byte.byte),
     fs !! path = Some (RegularFile content) →
     snd result !! path = Some (RegularFile content))
  ∧ (∀ path : string, path ≠ filename → snd result !! path = fs !! path)
  ∧ (∀ content : list Byte.byte,
       fs !! filename = Some (RegularFile content) → stat_failure env filename = None →
       result = (Returned (Some (errorString "file already exists")), fs))
  ∧ (fst result = Returned None →
     fs !! filename = None ∧ snd result !! filename = Some (RegularFile []))
  ∧ (fs !! filename = Some Directory → stat_failure env filename = None →
     result = (Returned (Some (errorString ("open " +:+ filename +:+ ": is a directory"))),
               fs)).
Proof.
  intros result. unfold result, CreateFileIfNotExist, fileExists, os_Stat, os_Create.
  destruct (stat_failure env filename) as [err|]; simpl.
  { split_and!; try done. }
  destruct (fs !! filename) as [[content|]|] eqn:Hfile; simpl.
  - split_and!; done.
  - split_and!; done.
  - destruct (create_failure env filename); simpl; [by split_and!|].
    split_and!; try done.
    + intros path content Hpath. rewrite lookup_insert_ne; [done|]. congruence.
    + intros path Hpath. by rewrite lookup_insert_ne.
    + intros _. by rewrite lookup_insert_eq.
Qed.

Lemma CreateFileIfNotExist_keeps_files_witness :
  CreateFileIfNotExist {| stat_failure := fun _ => None; create_failure := fun _ => None |}
    {[ "nitro.yaml" := RegularFile (Examples.bytes "sites: []") ]} "nitro.yaml"
  = (Returned (Some (errorString "file already exists")),
     {[ "nitro.yaml" := RegularFile (Examples.bytes "sites: []") ]}).
Proof.
  destruct (CreateFileIfNotExist_keeps_files
              {| stat_failure := fun _ => None; create_failure := fun _ => None |}
              {[ "nitro.yaml" := RegularFile (Examples.bytes "sites: []") ]} "nitro.yaml")
    as (_ & _ & Hexists & _).
  apply (Hexists (Examples.bytes "sites: []")); reflexivity.
Defined.

End CreateFile.

(** ** Adding a site interactively *)

Section CreateSiteProperties.

Import engine prompt.

Context {Config : Type}.

Implicit Types (env : SiteEnv Config).

Lemma contains_byte_app (c : ascii) (a b : string) :
  contains_byte c (a +:+ b) = contains_byte c a || contains_byte c b.
Proof.
  induction a as [|d a IH]; simpl; [done|]. rewrite IH. by rewrite orb_assoc.
Qed.

Lemma strings_HasPrefix_app (old rest : string) :
  strings_HasPrefix (old +:+ rest) old = true.
Proof.
  induction old as [|c old IH]; simpl; [by destruct rest|].
  by rewrite Ascii.eqb_refl, IH.
Qed.

Lemma string_drop_app (old rest : string) :
  string_drop (String.length old) (old +:+ rest) = rest.
Proof. induction old as [|c old IH]; simpl; [by destruct rest|done]. Qed.

Lemma strings_Replace_first_prefix (old rest new : string) :
  strings_Replace_first (old +:+ rest) old new = new +:+ rest.
Proof.
  pose proof (strings_HasPrefix_app old rest) as Hp.
  pose proof (string_drop_app old rest) as Hd.
  destruct (old +:+ rest); cbn [strings_Replace_first]; by rewrite Hp, Hd.
Qed.

(** Replacing the first occurrence: either [old] does not occur and the
    string is unchanged, or the string splits around an occurrence of
    [old] that is replaced. *)
Lemma strings_Replace_first_spec (s old new : string) :
  strings_Replace_first s old new = s
  ∨ ∃ before after, s = before +:+ old +:+ after
                    ∧ strings_Replace_first s old new = before +:+ new +:+ after.
Proof.
  assert (∀ s, strings_HasPrefix s old = true →
               s = old +:+ string_drop (String.length old) s) as Hprefix.
  { clear s. induction old as [|c old IH]; intros s; simpl; [by destruct s|].
    destruct s as [|d s]; simpl; [done|].
    intros [->%Ascii.eqb_eq Hs]%andb_true_iff.
    change (String d s = String d (old +:+ string_drop (String.length old) s)).
    f_equal. by apply IH. }
  induction s as [|c s IH].
  - cbn [strings_Replace_first]. destruct (strings_HasPrefix "" old) eqn:Hp; [|by left].
    right. exists "", (string_drop (String.length old) "").
    split; [by apply Hprefix|done].
  - cbn [strings_Replace_first].
    destruct (strings_HasPrefix (String c s) old) eqn:Hp.
    + right. exists "", (string_drop (String.length old) (String c s)).
      split; [by apply Hprefix|done].
    + destruct IH as [->|(before & after & Hs & ->)]; [by left|].
      right. exists (String c before), after. split; [by rewrite Hs|done].
Qed.

(** The first thing [CreateSite] does is to ask for the hostname,
    proposing the name of the site directory (which never contains a path
    separator): unchanged when it has a period, and otherwise followed by
    a period and NITRO_DEFAULT_TLD, or "nitro" when that is empty or not
    set. The proposed hostname always contains a period. *)
Theorem CreateSite_proposed_hostname env (home dir : string) :
  let name := last_field (strings_Split (filepath_Join env dir) (os_PathSeparator env)) in
  let tld := default "" (environ env !! "NITRO_DEFAULT_TLD") in
  head (snd (CreateSite env home dir))
  = Some (Ask "Enter the hostname" (proposed_hostname env dir))
  ∧ contains_byte "." (proposed_hostname env dir) = true
  ∧ contains_byte (os_PathSeparator env) name = false
  ∧ (contains_byte "." name = true → proposed_hostname env dir = name)
  ∧ (contains_byte "." name = false →
     proposed_hostname env dir
     = name +:+ "." +:+ (if String.eqb tld "" then "nitro" else tld)).
Proof.
  intros name tld. split_and!.
  - unfold CreateSite. by repeat case_match.
  - unfold proposed_hostname. fold name.
    destruct (contains_byte "." name) eqn:Hname; simpl; [done|].
    rewrite contains_byte_app. simpl. by rewrite orb_true_r.
  - unfold name, last_field.
    pose proof (strings_Split_fields (os_PathSeparator env) (filepath_Join env dir))
      as Hfields.
    destruct (last _) as [field|] eqn:Hlast; [|done]. simpl.
    apply last_Some_elem_of in Hlast. rewrite Forall_forall in Hfields.
    by apply Hfields.
  - intros Hname. unfold proposed_hostname. fold name. by rewrite Hname.
  - intros Hname. unfold proposed_hostname, os_Getenv. fold name tld.
    rewrite Hname. simpl. by destruct (String.eqb tld "").
Qed.

(** A site [CreateSite] returns has the path [filepath.Abs] gave for the
    directory with the first occurrence of [home] replaced by "~": a path
    under [home] becomes "~" followed by the rest, and a path in which
    [home] does not occur is kept. *)
Theorem CreateSite_path env (home dir : string) (site : Site) :
  fst (CreateSite env home dir) = Returned (Some site, None) →
  ∃ siteAbsPath : string,
    filepath_Abs env dir = inl siteAbsPath
    ∧ Path site = strings_Replace_first siteAbsPath home "~"
    ∧ (∀ rest, siteAbsPath = home +:+ rest → Path site = "~" +:+ rest)
    ∧ (Path site = siteAbsPath
       ∨ ∃ before after, siteAbsPath = before +:+ home +:+ after
                         ∧ Path site = before +:+ "~" +:+ after).
Proof.
  unfold CreateSite. intros Hret.
  repeat case_match; simplify_eq/=;
    (eexists; split_and!; [done|done| |apply strings_Replace_first_spec];
     intros rest ->; apply strings_Replace_first_prefix).
Qed.


(** [CreateSite] returns a site only after the configuration was loaded,
    the site added and the configuration saved, in this order and each
    without error; the site has the hostname and webroot the user
    answered and the PHP version selected; the webroot proposed is what
    [webroot.Find] found, or "web" when it found nothing; with an error no
    site is returned, and the configuration is never saved without the
    site having been added. *)
Theorem CreateSite_result env (home dir : string) :
  let result := CreateSite env home dir in
  (∀ site : Site,
     fst result = Returned (Some site, None) →
     ∃ (found : string) (selected : Z) (cfg cfg' : Config),
       output_Ask env "Enter the hostname" (proposed_hostname env dir)
       = inl (Hostname site)
       ∧ webroot_Find env dir = inl found
       ∧ output_Ask env "Enter the webroot for the site"
           (if String.eqb found "" then "web" else found) = inl (Webroot site)
       ∧ output_Select env "Choose a PHP version: " (phpversions_Versions env)
         = inl selected
       ∧ index_Z (phpversions_Versions env) selected = Some (Version site)
       ∧ config_Load env home = inl cfg
       ∧ config_AddSite env cfg site = inl cfg'
       ∧ config_Save env cfg' = None
       ∧ snd result
         = [Ask "Enter the hostname" (proposed_hostname env dir); Abs dir;
            FindWebroot dir;
            Ask "Enter the webroot for the site"
              (if String.eqb found "" then "web" else found);
            Select "Choose a PHP version: " (phpversions_Versions env);
            LoadConfig home; AddSite site; SaveConfig])
  ∧ (∀ (site : option Site) (err : error),
       fst result = Returned (site, Some err) → site = None)
  ∧ (SaveConfig ∈ snd result → ∃ site cfg cfg',
       AddSite site ∈ snd result ∧ config_AddSite env cfg site = inl cfg').
Proof.
  intros result. unfold result, CreateSite. split_and!.
  - intros site Hret. repeat case_match; simplify_eq/=;
      (eexists _, _, _, _;
       repeat match goal with H : String.eqb _ _ = _ |- _ => rewrite H end;
       split_and!; done).
  - intros site err Hret. by repeat case_match; simplify_eq/=.
  - intros Hsave. repeat case_match; simplify_eq/=;
      set_unfold in Hsave; destruct_or?; simplify_eq;
      (do 3 eexists; split; [|done]; set_unfold; tauto).
Qed.


End CreateSiteProperties.

Section CreateSiteWitnesses.

Import engine prompt.

Lemma CreateSite_path_witness :
  ∃ siteAbsPath : string,
    filepath_Abs MoreExamples.site_world "/home/oli/dev/shop" = inl siteAbsPath
    ∧ "~/dev/shop" = strings_Replace_first siteAbsPath "/home/oli" "~".
Proof.
  destruct (CreateSite_path MoreExamples.site_world "/home/oli" "/home/oli/dev/shop"
              {| Hostname := "shop.nitro"; Path := "~/dev/shop"; Webroot := "web";
                 Version := "8.0" |} eq_refl)
    as (siteAbsPath & Habs & Hpath & _).
  by exists siteAbsPath.
Defined.

Lemma CreateSite_result_witness :
  snd (CreateSite MoreExamples.site_world "/home/oli" "/home/oli/dev/shop")
  = [Ask "Enter the hostname" "shop.nitro"; Abs "/home/oli/dev/shop";
     FindWebroot "/home/oli/dev/shop"; Ask "Enter the webroot for the site" "web";
     Select "Choose a PHP version: " ["8.0"; "7.4"]; LoadConfig "/home/oli";
     AddSite {| Hostname := "shop.nitro"; Path := "~/dev/shop"; Webroot := "web";
                Version := "8.0" |};
     SaveConfig].
Proof.
  destruct (CreateSite_result MoreExamples.site_world "/home/oli" "/home/oli/dev/shop")
    as (Hok & _).
  destruct (Hok {| Hostname := "shop.nitro"; Path := "~/dev/shop"; Webroot := "web";
                   Version := "8.0" |} eq_refl)
    as (found & selected & cfg & cfg' & _ & Hfound & _ & _ & _ & _ & _ & _ & Htrace).
  rewrite Htrace. injection Hfound as <-. reflexivity.
Defined.

End CreateSiteWitnesses.

(** ** Adding a database interactively *)

Section CreateDatabaseProperties.

Import engine prompt.

Implicit Types (env : DatabaseEnv) (tr calls : list Call).

Lemma insert_by_name_elem (c x : Listed) (sorted : list Listed) :
  x ∈ insert_by_name c sorted ↔ x = c ∨ x ∈ sorted.
Proof.
  induction sorted as [|d sorted IH]; simpl; [set_solver|].
  destruct (name_less c d); set_solver.
Qed.

(** Sorting keeps the containers. *)
Lemma sort_by_name_elem (x : Listed) (containers : list Listed) :
  x ∈ sort_by_name containers ↔ x ∈ containers.
Proof.
  unfold sort_by_name.
  assert (∀ acc, x ∈ fold_left (fun sorted c => insert_by_name c sorted) containers acc
                 ↔ x ∈ acc ∨ x ∈ containers) as Hfold.
  { induction containers as [|c containers IH]; intros acc; simpl; [set_solver|].
    rewrite IH, insert_by_name_elem. set_solver. }
  rewrite Hfold. set_solver.
Qed.

Lemma at_index_elem {A : Type} (l : list A) (i : Z) (x : A) :
  at_index l i = Some x → x ∈ l.
Proof.
  unfold at_index. destruct (i <? 0)%Z; [done|]. apply list_elem_of_lookup_2.
Qed.

Lemma exec_commands_app calls calls' :
  exec_commands (calls ++ calls') = exec_commands calls ++ exec_commands calls'.
Proof. apply omap_app. Qed.

Lemma inspected_execs_app calls calls' :
  inspected_execs (calls ++ calls') = inspected_execs calls ++ inspected_execs calls'.
Proof. apply omap_app. Qed.

(** One exec creates one exec and inspects none. *)
Lemma run_exec_commands env (containerID : string) (cmd : list string) tr :
  exec_commands (snd (run_exec env containerID cmd tr))
  = exec_commands tr ++ [(containerID, cmd)]
  ∧ inspected_execs (snd (run_exec env containerID cmd tr)) = inspected_execs tr.
Proof.
  unfold run_exec.
  repeat case_match; simpl;
    rewrite ?exec_commands_app, ?inspected_execs_app; simpl;
    by rewrite ?app_nil_r.
Qed.

(** The wait only inspects the exec it waits for. *)
Lemma wait_exec_calls (fuel : nat) env (execID : string) (polls : nat) tr
    (ret : option error) tr' :
  wait_exec fuel env execID polls tr = Some (ret, tr') →
  ∃ n : nat, tr' = tr ++ replicate (S n) (ContainerExecInspect execID).
Proof.
  revert polls tr. induction fuel as [|fuel IH]; intros polls tr; simpl; [done|].
  destruct (docker_ContainerExecInspect env polls execID) as [[|]|err].
  - intros (n & ->)%IH. exists (S n). by rewrite <- app_assoc.
  - intros [= <- <-]. by exists 0%nat.
  - intros [= <- <-]. by exists 0%nat.
Qed.

(** The wait ends, without error, at the first inspection that finds the
    exec stopped, if the fuel reaches that far. *)
Lemma wait_exec_stops (fuel : nat) env (execID : string) (k polls : nat) tr :
  (∀ j, (j < k)%nat → docker_ContainerExecInspect env (polls + j) execID = inl true) →
  docker_ContainerExecInspect env (polls + k) execID = inl false →
  (k < fuel)%nat →
  wait_exec fuel env execID polls tr
  = Some (None, tr ++ replicate (S k) (ContainerExecInspect execID)).
Proof.
  revert fuel polls tr. induction k as [|k IH]; intros fuel polls tr Hrun Hstop Hfuel.
  - destruct fuel as [|fuel]; [lia|]. simpl.
    rewrite Nat.add_0_r in Hstop. by rewrite Hstop.
  - destruct fuel as [|fuel]; [lia|]. simpl.
    pose proof (Hrun 0%nat ltac:(lia)) as H0. rewrite Nat.add_0_r in H0. rewrite H0.
    rewrite (IH fuel (S polls)); [by rewrite <- app_assoc| | |lia].
    + intros j Hj. rewrite <- (Hrun (S j)) by lia. f_equal. lia.
    + rewrite <- Hstop. f_equal. lia.
Qed.

Lemma inspected_execs_replicate (n : nat) (execID : string) :
  inspected_execs (replicate n (ContainerExecInspect execID)) = replicate n execID.
Proof. induction n as [|n IH]; [done|]. simpl. by rewrite <- IH. Qed.

Lemma exec_commands_replicate (n : nat) (execID : string) :
  exec_commands (replicate n (ContainerExecInspect execID)) = [].
Proof. induction n as [|n IH]; [done|]. simpl. by rewrite <- IH. Qed.

(** The execs of one [CreateDatabase], whenever it ends: none at all; or,
    in the container the user chose among those listed and with the name
    the user gave, for a container whose compatibility label is "mysql"
    the CREATE DATABASE IF NOT EXISTS command and then, if that started,
    the GRANT ALL PRIVILEGES command, and for every other container the
    psql CREATE DATABASE command alone. Only the exec of the GRANT command
    is ever inspected: the function does not wait for a create command. *)
Theorem CreateDatabase_exec_commands (fuel : nat) env (outcome : Outcome Created) calls :
  CreateDatabase fuel env = Some (outcome, calls) →
  (exec_commands calls = [] ∧ inspected_execs calls = [])
  ∨ ∃ (containers : list Listed) (chosen : Listed) (db : string),
      docker_ContainerList env [("label", labels_Nitro env);
                                ("label", labels_Type env +:+ "=database")]
      = inl containers
      ∧ chosen ∈ containers
      ∧ ListedID chosen ≠ ""
      ∧ ask_database env = inl db
      ∧ if String.eqb (default "" (ListedLabels chosen
                                      !! labels_DatabaseCompatibility env)) "mysql"
        then (exec_commands calls = [(ListedID chosen, mysql_create db)]
              ∧ inspected_execs calls = [])
             ∨ (exec_commands calls = [(ListedID chosen, mysql_create db);
                                       (ListedID chosen, mysql_grant)]
                ∧ (inspected_execs calls = []
                   ∨ ∃ (grantExec : string) (n : nat),
                       docker_ContainerExecCreate env (ListedID chosen) mysql_grant
                       = inl grantExec
                       ∧ inspected_execs calls = replicate (S n) grantExec))
        else exec_commands calls = [(ListedID chosen, psql_create db)]
             ∧ inspected_execs calls = [].
Proof.
  unfold CreateDatabase.
  destruct (output_Confirm env) as [[|]|]; [|intros [= <- <-]; by left..].
  destruct (docker_ContainerList env _) as [containers|] eqn:Hlist;
    [|intros [= <- <-]; by left].
  destruct (existsb _ containers); [intros [= <- <-]; by left|].
  destruct (select_engine env _) as [selected|]; [|intros [= <- <-]; by left].
  destruct (at_index _ selected) as [chosen|] eqn:Hchosen; [|intros [= <- <-]; by left].
  apply at_index_elem in Hchosen. rewrite sort_by_name_elem in Hchosen.
  destruct (String.eqb_spec (ListedID chosen) "") as [|Hid]; [intros [= <- <-]; by left|].
  destruct (ask_database env) as [db|] eqn:Hdb; [|intros [= <- <-]; by left].
  set (listing := [ContainerList _ false]).
  intros Hrun. right. exists containers, chosen, db.
  split_and!; [done|exact Hchosen|done|done|].
  destruct (String.eqb _ "mysql").
  - (* mysql *)
    pose proof (run_exec_commands env (ListedID chosen) (mysql_create db) listing)
      as [Hc1 Hi1].
    destruct (run_exec env (ListedID chosen) (mysql_create db) listing)
      as [[err|e1 err|e1] tr1]; simpl in Hc1, Hi1.
    + injection Hrun as <- <-. by left.
    + injection Hrun as <- <-. left.
      by rewrite exec_commands_app, inspected_execs_app, Hc1, Hi1.
    + right.
      pose proof (run_exec_commands env (ListedID chosen) mysql_grant tr1) as [Hc2 Hi2].
      rewrite Hc1 in Hc2. rewrite Hi1 in Hi2. simpl in Hc2, Hi2.
      assert (∀ e2 tr2, run_exec env (ListedID chosen) mysql_grant tr1 = (Started e2, tr2) →
                docker_ContainerExecCreate env (ListedID chosen) mysql_grant = inl e2)
        as Hstarted.
      { intros e2 tr2. unfold run_exec. repeat case_match; intros ?; by simplify_eq. }
      destruct (run_exec env (ListedID chosen) mysql_grant tr1)
        as [[err|e2 err|e2] tr2] eqn:Hgrant; simpl in Hc2, Hi2.
      * injection Hrun as <- <-.
        rewrite exec_commands_app, inspected_execs_app, Hc2, Hi2. split; [done|by left].
      * injection Hrun as <- <-.
        rewrite exec_commands_app, inspected_execs_app, Hc2, Hi2. split; [done|by left].
      * destruct (wait_exec fuel env e2 0 tr2) as [[[err|] tr3]|] eqn:Hwait; [| |done];
          apply wait_exec_calls in Hwait as (n & ->).
        -- injection Hrun as <- <-.
           change (ContainerExecInspect e2 :: replicate n (ContainerExecInspect e2))
             with (replicate (S n) (ContainerExecInspect e2)).
           rewrite !exec_commands_app, !inspected_execs_app, Hc2, Hi2,
             exec_commands_replicate, inspected_execs_replicate.
           split; [done|]. right. exists e2, n. split; [by eapply Hstarted|].
           simpl. by rewrite app_nil_r.
        -- cbv zeta in Hrun.
           destruct (docker_ContainerInspect env (ListedID chosen));
             injection Hrun as <- <-;
             change (ContainerExecInspect e2 :: replicate n (ContainerExecInspect e2))
             with (replicate (S n) (ContainerExecInspect e2));
             rewrite !exec_commands_app, !inspected_execs_app, Hc2, Hi2,
               exec_commands_replicate, inspected_execs_replicate;
             simpl; rewrite ?app_nil_r;
             (split; [done|]; right; exists e2, n; split; [by eapply Hstarted|done]).
  - (* every other engine *)
    pose proof (run_exec_commands env (ListedID chosen) (psql_create db) listing)
      as [Hc1 Hi1].
    destruct (run_exec env (ListedID chosen) (psql_create db) listing)
      as [[err|e1 err|e1] tr1]; simpl in Hc1, Hi1.
    + by injection Hrun as <- <-.
    + injection Hrun as <- <-.
      by rewrite exec_commands_app, inspected_execs_app, Hc1, Hi1.
    + cbv zeta in Hrun.
      destruct (docker_ContainerInspect env (ListedID chosen));
        injection Hrun as <- <-;
        rewrite !exec_commands_app, !inspected_execs_app, Hc1, Hi1; simpl;
        by rewrite ?app_nil_r.
Qed.

Lemma CreateDatabase_exec_commands_witness :
  let env := MoreExamples.database_world 0 in
  let calls :=
    [ContainerList [("label", "com.craftcms.nitro");
                    ("label", "com.craftcms.nitro.type=database")] false;
     ContainerExecCreate "m1" (mysql_create "shop");
     ContainerExecAttach "exec-create"; ContainerExecStart "exec-create";
     ContainerExecCreate "m1" mysql_grant;
     ContainerExecAttach "exec-grant"; ContainerExecStart "exec-grant";
     ContainerExecInspect "exec-grant"; ContainerExecInspect "exec-grant";
     ContainerExecInspect "exec-grant"; ContainerInspect "m1";
     CloseStream "exec-grant"; CloseStream "exec-create"] in
  (exec_commands calls = [] ∧ inspected_execs calls = [])
  ∨ ∃ (containers : list Listed) (chosen : Listed) (db : string),
      docker_ContainerList env [("label", labels_Nitro env);
                                ("label", labels_Type env +:+ "=database")]
      = inl containers
      ∧ chosen ∈ containers
      ∧ ListedID chosen ≠ ""
      ∧ ask_database env = inl db
      ∧ if String.eqb (default "" (ListedLabels chosen
                                      !! labels_DatabaseCompatibility env)) "mysql"
        then (exec_commands calls = [(ListedID chosen, mysql_create db)]
              ∧ inspected_execs calls = [])
             ∨ (exec_commands calls = [(ListedID chosen, mysql_create db);
                                       (ListedID chosen, mysql_grant)]
                ∧ (inspected_execs calls = []
                   ∨ ∃ (grantExec : string) (n : nat),
                       docker_ContainerExecCreate env (ListedID chosen) mysql_grant
                       = inl grantExec
                       ∧ inspected_execs calls = replicate (S n) grantExec))
        else exec_commands calls = [(ListedID chosen, psql_create db)]
             ∧ inspected_execs calls = [].
Proof.
  apply (CreateDatabase_exec_commands 3 (MoreExamples.database_world 0)
           (Returned (true, "mysql-8.0-3306.nitro", "shop", "3306", "mysql", None))).
  reflexivity.
Defined.

(** The port returned is the first non-empty port in the order [range]
    visits them, and empty when there is none. *)
Lemma first_port_spec (ports : list string) :
  first_port ports = default "" (head (filter (fun p => p ≠ "") ports)).
Proof.
  unfold first_port.
  assert (∀ port, fold_left (fun port p => if negb (String.eqb port "") then port else p)
                    ports port
                  = if String.eqb port "" then default "" (head (filter (fun p => p ≠ "") ports))
                    else port) as Hfold.
  { induction ports as [|p ports IH]; intros port; simpl.
    - by destruct (String.eqb_spec port "").
    - rewrite IH. destruct (String.eqb_spec port "") as [->|Hport]; simpl.
      + rewrite filter_cons. destruct (String.eqb_spec p "") as [->|Hp].
        * by rewrite decide_False by naive_solver.
        * by rewrite decide_True.
      + apply String.eqb_neq in Hport. by rewrite Hport. }
  by rewrite Hfold.
Qed.

(** A complete run on a mysql container: the create exec is started and
    not waited for, the GRANT exec is started and inspected until it is
    found stopped, here at inspection [k], which needs [k + 1] units of
    fuel; the streams are closed last, the later one first. The values
    returned are the container's first name without leading slashes, the
    database name, the first non-empty port and the driver "mysql". *)
Theorem CreateDatabase_mysql_run (fuel : nat) env (containers : list Listed)
    (chosen : Listed) (selected : Z) (name db createExec grantExec : string)
    (ports : list string) (k : nat) :
  output_Confirm env = inl true →
  docker_ContainerList env [("label", labels_Nitro env);
                            ("label", labels_Type env +:+ "=database")]
  = inl containers →
  Forall (fun c => ListedNames c ≠ []) containers →
  select_engine env
    (map (fun c => strings_TrimLeft (default "" (first_name c)) "/")
       (sort_by_name containers)) = inl selected →
  at_index (sort_by_name containers) selected = Some chosen →
  first_name chosen = Some name →
  ListedID chosen ≠ "" →
  ListedLabels chosen !! labels_DatabaseCompatibility env = Some "mysql" →
  ask_database env = inl db →
  docker_ContainerExecCreate env (ListedID chosen) (mysql_create db) = inl createExec →
  docker_ContainerExecAttach env createExec = None →
  docker_ContainerExecStart env createExec = None →
  docker_ContainerExecCreate env (ListedID chosen) mysql_grant = inl grantExec →
  docker_ContainerExecAttach env grantExec = None →
  docker_ContainerExecStart env grantExec = None →
  (∀ j, (j < k)%nat → docker_ContainerExecInspect env j grantExec = inl true) →
  docker_ContainerExecInspect env k grantExec = inl false →
  (k < fuel)%nat →
  docker_ContainerInspect env (ListedID chosen) = inl ports →
  mysql_grant = ["mysql"; "-uroot"; "-pnitro";
                 "-e GRANT ALL PRIVILEGES ON * TO 'nitro'@'%';"]
  ∧ CreateDatabase fuel env
    = Some (Returned (true, strings_TrimLeft name "/", db,
                      default "" (head (filter (fun p => p ≠ "") ports)), "mysql", None),
            [ContainerList [("label", labels_Nitro env);
                            ("label", labels_Type env +:+ "=database")] false;
             ContainerExecCreate (ListedID chosen) (mysql_create db);
             ContainerExecAttach createExec; ContainerExecStart createExec;
             ContainerExecCreate (ListedID chosen) mysql_grant;
             ContainerExecAttach grantExec; ContainerExecStart grantExec]
            ++ replicate (S k) (ContainerExecInspect grantExec)
            ++ [ContainerInspect (ListedID chosen); CloseStream grantExec;
                CloseStream createExec]).
Proof.
  intros Hconfirm Hlist Hnames Hselect Hchosen Hname Hid Hlabel Hdb
    Hcreate Hattach1 Hstart1 Hgrant Hattach2 Hstart2 Hrunning Hstopped Hfuel Hports.
  split; [done|].
  unfold CreateDatabase. rewrite Hconfirm, Hlist.
  assert (existsb (fun c => match first_name c with None => true | _ => false end)
            containers = false) as ->.
  { clear -Hnames. induction Hnames as [|c l Hc _ IH]; [done|].
    simpl. rewrite IH. unfold first_name. by destruct (ListedNames c). }
  rewrite Hselect, Hchosen, Hlabel, Hdb. simpl.
  apply String.eqb_neq in Hid. rewrite Hid.
  unfold run_exec. rewrite Hcreate, Hattach1, Hstart1, Hgrant, Hattach2, Hstart2.
  erewrite (wait_exec_stops fuel env grantExec k 0); [|done|done|done].
  rewrite Hports, Hname, first_port_spec. simpl.
  by rewrite <- !app_assoc.
Qed.

Lemma CreateDatabase_mysql_run_witness :
  CreateDatabase 3 (MoreExamples.database_world 0)
  = Some (Returned (true, "mysql-8.0-3306.nitro", "shop", "3306", "mysql", None),
          [ContainerList [("label", "com.craftcms.nitro");
                          ("label", "com.craftcms.nitro.type=database")] false;
           ContainerExecCreate "m1" (mysql_create "shop");
           ContainerExecAttach "exec-create"; ContainerExecStart "exec-create";
           ContainerExecCreate "m1" mysql_grant;
           ContainerExecAttach "exec-grant"; ContainerExecStart "exec-grant";
           ContainerExecInspect "exec-grant"; ContainerExecInspect "exec-grant";
           ContainerExecInspect "exec-grant"; ContainerInspect "m1";
           CloseStream "exec-grant"; CloseStream "exec-create"]).
Proof.
  refine (proj2 (CreateDatabase_mysql_run 3 (MoreExamples.database_world 0)
                   [MoreExamples.database_container "p1" "/postgres-13-5432.nitro" "postgres";
                    MoreExamples.database_container "m1" "/mysql-8.0-3306.nitro" "mysql"]
                   (MoreExamples.database_container "m1" "/mysql-8.0-3306.nitro" "mysql")
                   0 "/mysql-8.0-3306.nitro" "shop" "exec-create" "exec-grant" ["3306"] 2
                   _ _ _ _ _ _ _ _ _ _ _ _ _ _ _ _ _ _ _));
    try reflexivity; try done.
  - by repeat constructor.
  - intros j Hj. simpl. apply f_equal. apply Nat.ltb_lt. exact Hj.
  - lia.
Defined.

(** A complete run on a container whose compatibility label is not
    "mysql": the psql create exec is started and the function returns
    without inspecting it, so no fuel is needed; the driver returned is
    "pgsql" for the label "postgres" and "mysql" for every other label. *)
Theorem CreateDatabase_other_run (fuel : nat) env (containers : list Listed)
    (chosen : Listed) (selected : Z) (name db createExec : string) (ports : list string) :
  output_Confirm env = inl true →
  docker_ContainerList env [("label", labels_Nitro env);
                            ("label", labels_Type env +:+ "=database")]
  = inl containers →
  Forall (fun c => ListedNames c ≠ []) containers →
  select_engine env
    (map (fun c => strings_TrimLeft (default "" (first_name c)) "/")
       (sort_by_name containers)) = inl selected →
  at_index (sort_by_name containers) selected = Some chosen →
  first_name chosen = Some name →
  ListedID chosen ≠ "" →
  default "" (ListedLabels chosen !! labels_DatabaseCompatibility env) ≠ "mysql" →
  ask_database env = inl db →
  docker_ContainerExecCreate env (ListedID chosen) (psql_create db) = inl createExec →
  docker_ContainerExecAttach env createExec = None →
  docker_ContainerExecStart env createExec = None →
  docker_ContainerInspect env (ListedID chosen) = inl ports →
  CreateDatabase fuel env
  = Some (Returned (true, strings_TrimLeft name "/", db,
                    default "" (head (filter (fun p => p ≠ "") ports)),
                    (if String.eqb (default "" (ListedLabels chosen
                                                  !! labels_DatabaseCompatibility env))
                          "postgres"
                     then "pgsql" else "mysql"), None),
          [ContainerList [("label", labels_Nitro env);
                          ("label", labels_Type env +:+ "=database")] false;
           ContainerExecCreate (ListedID chosen) (psql_create db);
           ContainerExecAttach createExec; ContainerExecStart createExec;
           ContainerInspect (ListedID chosen); CloseStream createExec]).
Proof.
  intros Hconfirm Hlist Hnames Hselect Hchosen Hname Hid Hlabel Hdb
    Hcreate Hattach1 Hstart1 Hports.
  unfold CreateDatabase. rewrite Hconfirm, Hlist.
  assert (existsb (fun c => match first_name c with None => true | _ => false end)
            containers = false) as ->.
  { clear -Hnames. induction Hnames as [|c l Hc _ IH]; [done|].
    simpl. rewrite IH. unfold first_name. by destruct (ListedNames c). }
  rewrite Hselect, Hchosen, Hdb. simpl.
  apply String.eqb_neq in Hid, Hlabel. rewrite Hid, Hlabel.
  unfold run_exec. rewrite Hcreate, Hattach1, Hstart1.
  by rewrite Hports, Hname, first_port_spec.
Qed.

Lemma CreateDatabase_other_run_witness :
  CreateDatabase 0 (MoreExamples.database_world 1)
  = Some (Returned (true, "postgres-13-5432.nitro", "shop", "3306", "pgsql", None),
          [ContainerList [("label", "com.craftcms.nitro");
                          ("label", "com.craftcms.nitro.type=database")] false;
           ContainerExecCreate "p1" (psql_create "shop");
           ContainerExecAttach "exec-create"; ContainerExecStart "exec-create";
           ContainerInspect "p1"; CloseStream "exec-create"]).
Proof.
  refine (CreateDatabase_other_run 0 (MoreExamples.database_world 1)
            [MoreExamples.database_container "p1" "/postgres-13-5432.nitro" "postgres";
             MoreExamples.database_container "m1" "/mysql-8.0-3306.nitro" "mysql"]
            (MoreExamples.database_container "p1" "/postgres-13-5432.nitro" "postgres")
            1 "/postgres-13-5432.nitro" "shop" "exec-create" ["3306"]
            _ _ _ _ _ _ _ _ _ _ _ _ _);
    try reflexivity; try done.
  by repeat constructor.
Defined.

End CreateDatabaseProperties.

Section TrustCertificate.

Import engine trust.

Lemma wait_for_certificate_found env containerID name k :
  ∀ fuel polls tr,
  (∀ j, (j < k)%nat →
     match docker_ContainerStatPath env (polls + j) containerID certificate_path with
     | inl found => found = ""
     | inr _ => True
     end) →
  docker_ContainerStatPath env (polls + k) containerID certificate_path = inl name →
  name ≠ "" →
  (k < fuel)%nat →
  wait_for_certificate fuel env containerID polls tr
  = Some (tr ++ replicate (S k) (Docker (ContainerStatPath containerID certificate_path))).
Proof.
  induction k as [|k IH]; intros fuel polls tr Hbefore Hfound Hname Hfuel;
    (destruct fuel as [|fuel]; [lia|]); simpl.
  - rewrite Nat.add_0_r in Hfound. rewrite Hfound.
    apply String.eqb_neq in Hname. by rewrite Hname.
  - assert (wait_for_certificate fuel env containerID (S polls)
              (tr ++ [Docker (ContainerStatPath containerID certificate_path)])
            = Some ((tr ++ [Docker (ContainerStatPath containerID certificate_path)])
                    ++ replicate (S k)
                         (Docker (ContainerStatPath containerID certificate_path))))
      as Hrest.
    { apply IH; [|by rewrite Nat.add_succ_comm|done|lia].
      intros j Hj. rewrite Nat.add_succ_comm. apply Hbefore. lia. }
    rewrite <- app_assoc in Hrest. simpl in Hrest.
    pose proof (Hbefore 0%nat ltac:(lia)) as H0. rewrite Nat.add_0_r in H0.
    destruct (docker_ContainerStatPath env polls containerID certificate_path)
      as [found|err]; [|done].
    subst found. done.
Qed.


(** The trust command polls the first listed container until the
    certificate is there: errors of the stat and stats without a name are
    never returned, and with the certificate found at the stat number [k]
    the command returns for every fuel above [k], having sent [k + 1]
    stats and then the copy, all to that first container. *)
Theorem trust_polls_first_container fuel env fs first others name k :
  docker_ContainerList env
    [("label", labels_Nitro env); ("label", labels_Proxy env +:+ "=true")]
  = inl (first :: others) →
  (∀ j, (j < k)%nat →
     match docker_ContainerStatPath env j (ListedID first) certificate_path with
     | inl found => found = ""
     | inr _ => True
     end) →
  docker_ContainerStatPath env k (ListedID first) certificate_path = inl name →
  name ≠ "" →
  (k < fuel)%nat →
  ∃ ret st later,
    RunE fuel env fs = Some (ret, st)
    ∧ steps st
      = Docker (ContainerList [("label", labels_Nitro env);
                               ("label", labels_Proxy env +:+ "=true")] true)
        :: replicate (S k) (Docker (ContainerStatPath (ListedID first) certificate_path))
        ++ Docker (CopyFromContainer (ListedID first) certificate_path) :: later.
Proof.
  intros Hlist Hbefore Hfound Hname Hfuel. unfold RunE. rewrite Hlist.
  rewrite (wait_for_certificate_found env (ListedID first) name k fuel 0)
    by done.
  cbv zeta.
  repeat case_match; eexists _, _, _; (split; [reflexivity|]);
    cbn [steps]; rewrite <- ?app_assoc; cbn [app];
    try (rewrite <- ?app_assoc; cbn [app]); f_equal; f_equal;
    try reflexivity.
  all: by rewrite app_nil_r.
Qed.

Lemma trust_polls_first_container_witness :
  ∃ ret st later,
    RunE 3 MoreExamples.trust_world ∅ = Some (ret, st)
    ∧ steps st
      = Docker (ContainerList [("label", "com.craftcms.nitro");
                               ("label", "com.craftcms.nitro.proxy=true")] true)
        :: replicate 3 (Docker (ContainerStatPath "4f5ac1" certificate_path))
        ++ Docker (CopyFromContainer "4f5ac1" certificate_path) :: later.
Proof.
  apply (trust_polls_first_container 3 MoreExamples.trust_world ∅
           (MoreExamples.listed "4f5ac1" "/nitro-proxy") [] "root.crt" 2).
  - reflexivity.
  - intros [|[|j]] Hj; [done|done|lia].
  - reflexivity.
  - done.
  - lia.
Defined.





End TrustCertificate.
